(** * The bridge server's payment handler

    A shallow embedding of [RequestHandler.Payment]
    (bridge/handlers/request_handler_payment.go) and the properties of its
    decision pipeline: source parsing, the choice between the compliance
    relay and direct assembly, destination resolution, asset selection,
    memo policy and dispatch, sequence numbering, transaction building,
    signing and submission.

    The handler talks to collaborators (federation, horizon, the compliance
    server, the transaction builder).  Their answers are not under the
    handler's control, so the embedding runs the handler in a small monad
    that threads the collaborators' world, records every call with its
    answer, and stops at the first response written. *)

From Stdlib Require Import ZArith List String Ascii Bool Lia.
Import ListNotations.
Open Scope string_scope.
Open Scope Z_scope.

(** ** Go values used by the handler *)

(** A Go [error] is only ever tested against [nil] here, or asked for its
    text; it is kept as its message. *)
Definition error := string.

(** A Go pair [(v, err)]: [inl err] when [err != nil], [inr v] otherwise. *)
Definition result (A : Type) : Type := (error + A)%type.

Definition uint64_modulus : Z := 2 ^ 64.

(** [s != ""] *)
Definition nonempty (s : string) : bool := negb (String.eqb s "").

Definition byte_of (c : ascii) : Z := Z.of_N (N_of_ascii c).

(** ** The Go standard library functions the handler calls *)

Module strconv.

Inductive NumError := ErrSyntax | ErrRange.

Definition maxUint64 : Z := uint64_modulus - 1.

(** [cutoff] is the smallest number such that [cutoff * 10 > maxUint64]. *)
Definition cutoff : Z := maxUint64 / 10 + 1.

(** [lower(c) = c | ('x' - 'X')] *)
Definition lower (c : Z) : Z := Z.lor c 32.

(** The digit value of one byte, before the comparison with the base. *)
Definition digit (c : ascii) : option Z :=
  let b := byte_of c in
  if (48 <=? b) && (b <=? 57) then Some (b - 48)
  else if (97 <=? lower b) && (lower b <=? 122) then Some (lower b - 97 + 10)
  else None.

(** The loop of [ParseUint(s, 10, 64)] over the bytes of [s], with the
    accumulator [n]; the additions are those of a [uint64]. *)
Fixpoint parse_loop (s : string) (n : Z) : NumError + Z :=
  match s with
  | EmptyString => inr n
  | String c s' =>
      match digit c with
      | None => inl ErrSyntax
      | Some d =>
          if d >=? 10 then inl ErrSyntax
          else if n >=? cutoff then inl ErrRange
          else
            let n10 := (n * 10) mod uint64_modulus in
            let n1 := (n10 + d) mod uint64_modulus in
            if (n1 <? n10) || (n1 >? maxUint64) then inl ErrRange
            else parse_loop s' n1
      end
  end.

(** [strconv.ParseUint(s, 10, 64)] *)
Definition ParseUint (s : string) : NumError + Z :=
  match s with
  | EmptyString => inl ErrSyntax
  | _ => parse_loop s 0
  end.

(** The number a string of decimal digits denotes, continuing from [n]. *)
Definition isDigit (c : ascii) : bool :=
  (48 <=? byte_of c) && (byte_of c <=? 57).

Fixpoint allDigits (s : string) : bool :=
  match s with
  | EmptyString => true
  | String c s' => isDigit c && allDigits s'
  end.

Fixpoint decimal_from (s : string) (n : Z) : Z :=
  match s with
  | EmptyString => n
  | String c s' => decimal_from s' (n * 10 + (byte_of c - 48))
  end.

Definition decimal (s : string) : Z := decimal_from s 0.

End strconv.

Module hex.

(** [fromHexChar]: the value of one hexadecimal digit, either case. *)
Definition fromHexChar (c : ascii) : option Z :=
  let b := byte_of c in
  if (48 <=? b) && (b <=? 57) then Some (b - 48)
  else if (97 <=? b) && (b <=? 102) then Some (b - 97 + 10)
  else if (65 <=? b) && (b <=? 70) then Some (b - 65 + 10)
  else None.


(** [hex.DecodeString]: [None] stands for a non-nil error (odd length or
    a byte that is no hexadecimal digit); the handler only tests the
    error against [nil]. *)
Fixpoint DecodeString (s : string) : option (list Z) :=
  match s with
  | EmptyString => Some []
  | String _ EmptyString => None
  | String p (String q s') =>
      match fromHexChar p, fromHexChar q with
      | Some a, Some b =>
          match DecodeString s' with
          | Some bs => Some (Z.lor (Z.shiftl a 4) b :: bs)
          | None => None
          end
      | _, _ => None
      end
  end.


End hex.

Module strings.

(** [strings.HasPrefix(s, prefix)] *)
Fixpoint HasPrefix (s prefix : string) : bool :=
  match prefix, s with
  | EmptyString, _ => true
  | String _ _, EmptyString => false
  | String a p', String b s' => Ascii.eqb a b && HasPrefix s' p'
  end.

(** [strings.Contains(s, substr)] *)
Fixpoint Contains (s substr : string) : bool :=
  HasPrefix s substr ||
  match s with
  | EmptyString => false
  | String _ s' => Contains s' substr
  end.

End strings.

(** ** Data of the handler *)

(** The form values read with [r.PostFormValue]; a missing field reads as
    the empty string. *)
Record Request := {
  source : string;
  destination : string;
  amount : string;
  asset_code : string;
  asset_issuer : string;
  memo_type : string;
  memo : string;
  extra_memo : string;
  sender : string
}.

(** The fields of [rh.Config] the handler reads; a [*string] is an
    [option]. *)
Record Config := {
  Compliance : option string;
  IssuingSeed : option string;
  NetworkPassphrase : string
}.

(** What the handler uses of a parsed [keypair.KP]. *)
Record KP := { Address : string }.

(** The destination object of [federation.Resolve]. *)
Record ResolvedDestination := {
  AccountId : string;
  MemoType : option string;
  Memo : option string
}.

(** The account of [Horizon.LoadAccount]. *)
Record AccountResponse := { SequenceNumber : string }.

(** An HTTP response; [Body] is what [ioutil.ReadAll(resp.Body)] gives. *)
Record HttpResponse := {
  StatusCode : Z;
  Body : result string
}.

(** [compliance.SendResponse] *)
Record SendResponse := { TransactionXdr : string }.

(** The mutators handed to [b.Payment] and [b.CreateAccount]. *)
Inductive PaymentMutator :=
| Destination (AddressOrSeed : string)
| NativeAmount (Amount : string)
| CreditAmount (Code Issuer Amount : string).

(** The values handed to [b.Transaction].  The two untyped slots of the
    handler, [operationBuilder] and [memoMutator], hold values of this
    type. *)
Inductive TransactionMutator :=
| SourceAccount (AddressOrSeed : string)
| Sequence (n : Z)
| Network (Passphrase : string)
| b_Payment (muts : list PaymentMutator)
| b_CreateAccount (muts : list PaymentMutator)
| MemoID (Value : Z)
| MemoText (Value : string)
| MemoHash (Value : list Z).

(** The error codes of package [horizon] this handler writes. *)
Inductive ErrorCode :=
| PaymentInvalidSource
| PaymentCannotResolveDestination
| PaymentInvalidDestination
| PaymentInvalidIssuer
| PaymentMissingParamAsset
| PaymentMissingParamMemo
| PaymentCannotUseMemo
| PaymentInvalidMemo
| PaymentSourceNotExist
| PaymentMalformedAssetCode
| PaymentInvalidAmount
| ServerError.

(** The closed error taxonomy of the specification (section 7), and the
    kind each code of the handler stands for. *)
Inductive ErrorKind :=
| InvalidSource
| UnresolvableDestination
| InvalidResolvedAccount
| MissingAssetParameter
| InvalidIssuer
| MissingMemoParameter
| ConflictingMemo
| InvalidMemo
| UnsupportedMemoType
| MalformedAssetCode
| InvalidAmount
| SourceAccountNotFound
| ServerErrorKind
| Canceled.

Definition kind_of (c : ErrorCode) : ErrorKind :=
  match c with
  | PaymentInvalidSource => InvalidSource
  | PaymentCannotResolveDestination => UnresolvableDestination
  | PaymentInvalidDestination => InvalidResolvedAccount
  | PaymentInvalidIssuer => InvalidIssuer
  | PaymentMissingParamAsset => MissingAssetParameter
  | PaymentMissingParamMemo => MissingMemoParameter
  | PaymentCannotUseMemo => ConflictingMemo
  | PaymentInvalidMemo => InvalidMemo
  | PaymentSourceNotExist => SourceAccountNotFound
  | PaymentMalformedAssetCode => MalformedAssetCode
  | PaymentInvalidAmount => InvalidAmount
  | ServerError => ServerErrorKind
  end.


(** The operations and the memos among the mutators of a transaction. *)
Definition is_operation (m : TransactionMutator) : bool :=
  match m with b_Payment _ | b_CreateAccount _ => true | _ => false end.

Definition is_memo (m : TransactionMutator) : bool :=
  match m with MemoID _ | MemoText _ | MemoHash _ => true | _ => false end.

Definition is_sequence (m : TransactionMutator) : bool :=
  match m with Sequence _ => true | _ => false end.

Definition operations (muts : list TransactionMutator) : list TransactionMutator :=
  filter is_operation muts.

Definition memos (muts : list TransactionMutator) : list TransactionMutator :=
  filter is_memo muts.

Definition sequences (muts : list TransactionMutator) : list TransactionMutator :=
  filter is_sequence muts.

(** ** Responses, collaborators and the handler's monad *)

Section Model.

(** The collaborators' world (the ledger, the network, the compliance
    server), the submission result of horizon and the decoded XDR
    transaction are opaque to the handler. *)
Context {World SubmitTransactionResponse XdrTransaction : Type}.

(** What [server.Write] is given: an error response or the submission
    result, verbatim. *)
Inductive Response :=
| ErrorResponse (code : ErrorCode)
| Submitted (submitResponse : SubmitTransactionResponse).

(** How a request ends: a response is written and the handler returns,
    or a nil pointer is dereferenced and the handler panics. *)
Inductive Outcome :=
| Written (r : Response)
| NilDereference.

(** The calls that leave the handler, each with the answer it got, and
    the transactions it asks the builder for. *)
Inductive Event :=
| EvPostForm (url : string) (values : list (string * string))
    (ans : result HttpResponse)
| EvSignAndSubmitRawTransaction (seed : string) (tx : XdrTransaction)
    (ans : result SubmitTransactionResponse)
| EvResolve (address : string) (ans : result ResolvedDestination)
| EvLoadAccount (accountId : string) (ans : result AccountResponse)
| EvTransaction (muts : list TransactionMutator)
| EvSubmitTransaction (txeB64 : string)
    (ans : result SubmitTransactionResponse).

(** The pure functions of the imported packages: address parsing,
    decoding, and the builder's verdict on a list of mutators ([tx.Err],
    and [tx.Sign(seed)] followed by [Base64()]). *)
Record Library := {
  keypair_Parse : string -> result KP;
  json_Unmarshal : string -> result SendResponse;
  xdr_SafeUnmarshalBase64 : string -> result XdrTransaction;
  Transaction_Err : list TransactionMutator -> option error;
  Sign_Base64 : list TransactionMutator -> string -> result string
}.

(** The collaborators that do input and output; each call may change
    the world and answer differently the next time. *)
Record Collaborators := {
  http_PostForm :
    string -> list (string * string) -> World -> result HttpResponse * World;
  SignAndSubmitRawTransaction :
    string -> XdrTransaction -> World ->
    result SubmitTransactionResponse * World;
  federation_Resolve : string -> World -> result ResolvedDestination * World;
  Horizon_LoadAccount : string -> World -> result AccountResponse * World;
  Horizon_SubmitTransaction :
    string -> World -> result SubmitTransactionResponse * World
}.

Record State := {
  world : World;
  calls : list Event
}.

(** A computation either ends the request ([inl]) or goes on with a
    value ([inr]); the state is kept either way. *)
Definition M (A : Type) : Type := State -> (Outcome + A) * State.

Definition ret {A} (a : A) : M A := fun s => (inr a, s).

Definition bind {A B} (m : M A) (k : A -> M B) : M B :=
  fun s =>
    match m s with
    | (inl o, s') => (inl o, s')
    | (inr a, s') => k a s'
    end.

(** [server.Write(w, r); return] *)
Definition respond {A} (r : Response) : M A := fun s => (inl (Written r), s).

Definition panic {A} : M A := fun s => (inl NilDereference, s).

Definition record (e : Event) : M unit :=
  fun s => (inr tt, {| world := world s; calls := calls s ++ [e] |}).

(** A call to a collaborator, recorded with its answer. *)
Definition call {A} (f : World -> A * World) (ev : A -> Event) : M A :=
  fun s =>
    let (a, w') := f (world s) in
    (inr a, {| world := w'; calls := calls s ++ [ev a] |}).

Notation "x <- m ;; k" := (bind m (fun x => k))
  (at level 61, m at next level, right associativity).

Definition fail {A} (code : ErrorCode) : M A := respond (ErrorResponse code).

Variable lib : Library.
Variable env : Collaborators.
Variable cfg : Config.
Variable req : Request.

(** *** The compliance relay (lines 39 to 101) *)

Definition complianceValues (sourceKeypair : KP) : list (string * string) :=
  [ ("source", Address sourceKeypair);
    ("sender", sender req);
    ("destination", destination req);
    ("amount", amount req);
    ("asset_code", asset_code req);
    ("asset_issuer", asset_issuer req);
    ("extra_memo", extra_memo req) ].

Definition complianceRelay (sourceKeypair : KP) (compliance : string)
  : M Empty_set :=
  let url := compliance ++ "/send" in
  let values := complianceValues sourceKeypair in
  posted <- call (http_PostForm env url values) (EvPostForm url values) ;;
  match posted with
  | inl _ => fail ServerError
  | inr resp =>
      match Body resp with
      | inl _ => fail ServerError
      | inr body =>
          if negb (StatusCode resp =? 200) then fail ServerError
          else
            match json_Unmarshal lib body with
            | inl _ => fail ServerError
            | inr complianceSendResponse =>
                match xdr_SafeUnmarshalBase64 lib
                        (TransactionXdr complianceSendResponse) with
                | inl _ => fail ServerError
                | inr tx =>
                    match IssuingSeed cfg with
                    | None => panic
                    | Some seed =>
                        submitted <-
                          call (SignAndSubmitRawTransaction env seed tx)
                               (EvSignAndSubmitRawTransaction seed tx) ;;
                        match submitted with
                        | inl _ => fail ServerError
                        | inr submitResponse =>
                            respond (Submitted submitResponse)
                        end
                    end
                end
            end
      end
  end.

(** *** Direct assembly (lines 103 to 259) *)

(** Lines 104 to 116: resolution and the check of the resolved account. *)
Definition resolveDestination : M ResolvedDestination :=
  resolved <- call (federation_Resolve env (destination req))
                   (EvResolve (destination req)) ;;
  match resolved with
  | inl _ => fail PaymentCannotResolveDestination
  | inr destinationObject =>
      match keypair_Parse lib (AccountId destinationObject) with
      | inl _ => fail PaymentInvalidDestination
      | inr _ => ret destinationObject
      end
  end.

(** Lines 118 to 150: the value of [operationBuilder]. *)
Definition selectOperation (destinationObject : ResolvedDestination)
  : M TransactionMutator :=
  let assetCode := asset_code req in
  let assetIssuer := asset_issuer req in
  if nonempty assetCode && nonempty assetIssuer then
    match keypair_Parse lib assetIssuer with
    | inl _ => fail PaymentInvalidIssuer
    | inr issuerKeypair =>
        ret (b_Payment
               [ Destination (AccountId destinationObject);
                 CreditAmount assetCode (Address issuerKeypair) (amount req) ])
    end
  else if negb (nonempty assetCode) && negb (nonempty assetIssuer) then
    let mutators :=
      [ Destination (AccountId destinationObject);
        NativeAmount (amount req) ] in
    loaded <- call (Horizon_LoadAccount env (AccountId destinationObject))
                   (EvLoadAccount (AccountId destinationObject)) ;;
    match loaded with
    | inl _ => ret (b_CreateAccount mutators)
    | inr _ => ret (b_Payment mutators)
    end
  else fail PaymentMissingParamAsset.

(** Lines 152 to 167: the memo type and value that reach the dispatch. *)
Definition memoPolicy (destinationObject : ResolvedDestination)
  : M (string * string) :=
  let memoType := memo_type req in
  let memo := memo req in
  if negb ((negb (nonempty memoType) && negb (nonempty memo))
           || (nonempty memoType && nonempty memo))
  then fail PaymentMissingParamMemo
  else
    match MemoType destinationObject with
    | Some mandatedType =>
        if nonempty memoType then fail PaymentCannotUseMemo
        else
          match Memo destinationObject with
          | Some mandatedMemo => ret (mandatedType, mandatedMemo)
          | None => panic
          end
    | None => ret (memoType, memo)
    end.

(** Lines 169 to 198: the value of [memoMutator]; [None] is [nil]. *)
Definition memoDispatch (memoType memo : string)
  : M (option TransactionMutator) :=
  if String.eqb memoType "" then ret None
  else if String.eqb memoType "id" then
    match strconv.ParseUint memo with
    | inl _ => fail PaymentInvalidMemo
    | inr id => ret (Some (MemoID id))
    end
  else if String.eqb memoType "text" then ret (Some (MemoText memo))
  else if String.eqb memoType "hash" then
    match hex.DecodeString memo with
    | None => fail PaymentInvalidMemo
    | Some memoBytes =>
        if negb (Z.of_nat (List.length memoBytes) =? 32) then
          fail PaymentInvalidMemo
        else ret (Some (MemoHash (firstn 32 memoBytes)))
    end
  else fail PaymentInvalidMemo.

(** Lines 200 to 212: the source account and its sequence number. *)
Definition loadSequence (sourceKeypair : KP) : M Z :=
  loaded <- call (Horizon_LoadAccount env (Address sourceKeypair))
                 (EvLoadAccount (Address sourceKeypair)) ;;
  match loaded with
  | inl _ => fail PaymentSourceNotExist
  | inr accountResponse =>
      match strconv.ParseUint (SequenceNumber accountResponse) with
      | inl _ => fail ServerError
      | inr sequenceNumber => ret sequenceNumber
      end
  end.

(** Lines 214 to 223: the mutators of the transaction; [+] on a
    [uint64] wraps around. *)
Definition transactionMutators (operationBuilder : TransactionMutator)
    (memoMutator : option TransactionMutator) (sequenceNumber : Z)
  : list TransactionMutator :=
  [ SourceAccount (source req);
    Sequence ((sequenceNumber + 1) mod uint64_modulus);
    Network (NetworkPassphrase cfg);
    operationBuilder ]
  ++ match memoMutator with
     | Some m => [m]
     | None => []
     end.

(** Lines 225 to 259: build, classify the builder's error, sign, encode
    and submit. *)
Definition buildAndSubmit (muts : list TransactionMutator) : M Empty_set :=
  _ <- record (EvTransaction muts) ;;
  match Transaction_Err lib muts with
  | Some msg =>
      if String.eqb msg "Asset code length is invalid" then
        fail PaymentMalformedAssetCode
      else if strings.Contains msg "cannot parse amount" then
        fail PaymentInvalidAmount
      else fail ServerError
  | None =>
      match Sign_Base64 lib muts (source req) with
      | inl _ => fail ServerError
      | inr txeB64 =>
          submitted <- call (Horizon_SubmitTransaction env txeB64)
                            (EvSubmitTransaction txeB64) ;;
          match submitted with
          | inl _ => fail ServerError
          | inr submitResponse => respond (Submitted submitResponse)
          end
      end
  end.

(** The stages before the memo dispatch: what the dispatch is entered
    with. *)
Definition beforeDispatch : M (TransactionMutator * (string * string)) :=
  destinationObject <- resolveDestination ;;
  operationBuilder <- selectOperation destinationObject ;;
  memoPair <- memoPolicy destinationObject ;;
  ret (operationBuilder, memoPair).

(** The stages from the source account on: what transaction construction
    is entered with. *)
Definition construct (sourceKeypair : KP)
    (operationBuilder : TransactionMutator)
    (memoMutator : option TransactionMutator) : M Empty_set :=
  sequenceNumber <- loadSequence sourceKeypair ;;
  buildAndSubmit
    (transactionMutators operationBuilder memoMutator sequenceNumber).

Definition directAssembly (sourceKeypair : KP) : M Empty_set :=
  entered <- beforeDispatch ;;
  memoMutator <- memoDispatch (fst (snd entered)) (snd (snd entered)) ;;
  construct sourceKeypair (fst entered) memoMutator.

(** Line 39: the relay is taken when [extra_memo] is given and a
    compliance server is configured; the result is its address. *)
Definition compliancePath : option string :=
  if nonempty (extra_memo req) then Compliance cfg else None.

(** [func (rh *RequestHandler) Payment(w, r)] *)
Definition Payment : M Empty_set :=
  match keypair_Parse lib (source req) with
  | inl _ => fail PaymentInvalidSource
  | inr sourceKeypair =>
      match compliancePath with
      | Some compliance => complianceRelay sourceKeypair compliance
      | None => directAssembly sourceKeypair
      end
  end.

(** One request, from a world with no call made yet: how it ends, and
    the state it leaves. *)
Definition start (w : World) : State := {| world := w; calls := [] |}.

Definition finish (r : (Outcome + Empty_set) * State)
  : Outcome * list Event :=
  match r with
  | (inl o, s) => (o, calls s)
  | (inr v, _) => match v with end
  end.

Definition handle (w : World) : Outcome * list Event :=
  finish (Payment (start w)).

(** *** The checks a request can fail by itself

    After the stage contracts of the specification (sections 4.2, 4.3
    and 4.5): each stage's check on the request alone, evaluated without
    regard to the other stages, in the order of the stages.  These are
    what the handler is compared with, not part of it. *)




(** A memo type and value that the dispatch refuses: an unsupported
    type, an id that is no unsigned 64-bit integer, a hash that does not
    decode to 32 bytes. *)
Definition refusedMemo (memoType memo : string) : bool :=
  if String.eqb memoType "" then false
  else if String.eqb memoType "id" then
    match strconv.ParseUint memo with inl _ => true | inr _ => false end
  else if String.eqb memoType "text" then false
  else if String.eqb memoType "hash" then
    match hex.DecodeString memo with
    | None => true
    | Some bytes => negb (Z.of_nat (List.length bytes) =? 32)
    end
  else true.



(** After section 4.5 of the specification: the relay's answer is a
    failure when it is a transport error, a body that cannot be read, a
    status other than 200, or a body that does not hold a transaction. *)
Definition relayFailed (ans : result HttpResponse) : bool :=
  match ans with
  | inl _ => true
  | inr resp =>
      match Body resp with
      | inl _ => true
      | inr body =>
          negb (StatusCode resp =? 200) ||
          match json_Unmarshal lib body with
          | inl _ => true
          | inr sent =>
              match xdr_SafeUnmarshalBase64 lib (TransactionXdr sent) with
              | inl _ => true
              | inr _ => false
              end
          end
      end
  end.

(** *** Reading a record of calls *)

Definition built (tr : list Event) : list (list TransactionMutator) :=
  flat_map (fun e => match e with EvTransaction muts => [muts] | _ => [] end) tr.

Definition loadedAccounts (tr : list Event) : list string :=
  flat_map (fun e => match e with EvLoadAccount id _ => [id] | _ => [] end) tr.

Definition is_submission (e : Event) : bool :=
  match e with
  | EvSubmitTransaction _ _ | EvSignAndSubmitRawTransaction _ _ _ => true
  | _ => false
  end.

Definition submissions (tr : list Event) : list Event :=
  filter is_submission tr.

End Model.

Arguments Response : clear implicits.
Arguments Outcome : clear implicits.
Arguments Event : clear implicits.
Arguments Library : clear implicits.
Arguments Collaborators : clear implicits.
Arguments State : clear implicits.

(** ** A small world to run requests in

    A ledger with its accounts and sequence numbers, a federation table,
    and the answer the compliance server gives.  Addresses start with G,
    seeds with S; the address of a seed is the seed with G for S. *)

Record TestWorld := {
  ledger : list (string * string);
  names : list (string * ResolvedDestination);
  complianceAnswer : result HttpResponse
}.

Fixpoint lookup {A} (k : string) (l : list (string * A)) : option A :=
  match l with
  | [] => None
  | (k', v) :: l' => if String.eqb k k' then Some v else lookup k l'
  end.

Definition testLibrary : Library string :=
  {| keypair_Parse := fun s =>
       match s with
       | String "G" _ => inr {| Address := s |}
       | String "S" rest => inr {| Address := String "G" rest |}
       | _ => inl "invalid key"
       end;
     json_Unmarshal := fun body =>
       if strings.HasPrefix body "{" then inr {| TransactionXdr := body |}
       else inl "invalid character";
     xdr_SafeUnmarshalBase64 := fun s =>
       if nonempty s then inr s else inl "empty";
     Transaction_Err := fun _ => None;
     Sign_Base64 := fun _ seed => inr ("signed by " ++ seed) |}.

Definition testCollaborators : Collaborators TestWorld string string :=
  {| http_PostForm := fun _ _ w => (complianceAnswer w, w);
     SignAndSubmitRawTransaction := fun _ _ w => (inr "submitted", w);
     federation_Resolve := fun address w =>
       (match lookup address (names w) with
        | Some d => inr d
        | None => inl "cannot resolve"
        end, w);
     Horizon_LoadAccount := fun id w =>
       (match lookup id (ledger w) with
        | Some seq => inr {| SequenceNumber := seq |}
        | None => inl "not found"
        end, w);
     Horizon_SubmitTransaction := fun _ w => (inr "submitted", w) |}.

Definition testConfig : Config :=
  {| Compliance := Some "http://compliance";
     IssuingSeed := Some "SISSUER";
     NetworkPassphrase := "Test Network" |}.

Definition plain (d : string) : ResolvedDestination :=
  {| AccountId := d; MemoType := None; Memo := None |}.

Definition testWorld : TestWorld :=
  {| ledger := [("GALICE", "41"); ("GBOB", "7");
                ("GMAX", "18446744073709551615")];
     names := [("bob*example.com", plain "GBOB");
               ("carol*example.com", plain "GCAROL");
               ("dave*example.com",
                 {| AccountId := "GBOB"; MemoType := Some "id";
                    Memo := Some "99" |});
               ("erin*example.com",
                 {| AccountId := "GBOB"; MemoType := Some "bogus";
                    Memo := Some "x" |})];
     complianceAnswer :=
       inr {| StatusCode := 200; Body := inr "{tx}" |} |}.

Definition testHandle (w : TestWorld) (r : Request)
  : Outcome string * list (Event string string) :=
  handle testLibrary testCollaborators testConfig r w.

(** A request with nothing but source, destination and amount. *)
Definition payment (src dest : string) : Request :=
  {| source := src; destination := dest; amount := "10";
     asset_code := ""; asset_issuer := ""; memo_type := ""; memo := "";
     extra_memo := ""; sender := "" |}.

Definition withAsset (code issuer : string) (r : Request) : Request :=
  {| source := source r; destination := destination r; amount := amount r;
     asset_code := code; asset_issuer := issuer;
     memo_type := memo_type r; memo := memo r;
     extra_memo := extra_memo r; sender := sender r |}.

Definition withMemo (type value : string) (r : Request) : Request :=
  {| source := source r; destination := destination r; amount := amount r;
     asset_code := asset_code r; asset_issuer := asset_issuer r;
     memo_type := type; memo := value;
     extra_memo := extra_memo r; sender := sender r |}.

Definition withExtraMemo (extra : string) (r : Request) : Request :=
  {| source := source r; destination := destination r; amount := amount r;
     asset_code := asset_code r; asset_issuer := asset_issuer r;
     memo_type := memo_type r; memo := memo r;
     extra_memo := extra; sender := sender r |}.

(** The compliance server answers with status 500. *)
Definition failingComplianceWorld : TestWorld :=
  {| ledger := ledger testWorld;
     names := names testWorld;
     complianceAnswer := inr {| StatusCode := 500; Body := inr "error" |} |}.

Definition sixtyFourHex : string :=
  "00112233445566778899aabbccddeeffFFEEDDCCBBAA99887766554433221100".

(** ** More to read off a record of calls, and more requests and worlds *)

(** The answer a submission got, whichever path made it. *)
Definition submissionAnswer {S X : Type} (e : Event S X) : option (result S) :=
  match e with
  | EvSubmitTransaction _ ans => Some ans
  | EvSignAndSubmitRawTransaction _ _ ans => Some ans
  | _ => None
  end.

(** Lines 95 to 101 and 253 to 259: what is written after a submission. *)
Definition afterSubmission {S : Type} (ans : result S) : Outcome S :=
  match ans with
  | inl _ => Written (ErrorResponse ServerError)
  | inr submitResponse => Written (Submitted submitResponse)
  end.

Definition withSender (name : string) (r : Request) : Request :=
  {| source := source r; destination := destination r; amount := amount r;
     asset_code := asset_code r; asset_issuer := asset_issuer r;
     memo_type := memo_type r; memo := memo r;
     extra_memo := extra_memo r; sender := name |}.

(** A federation table with odd answers: an account id that is no
    address, a memo type without a memo, an empty memo type; and a ledger
    with a sequence number that is no number. *)
Definition oddWorld : TestWorld :=
  {| ledger := [("GALICE", "41"); ("GBOB", "7"); ("GODD", "4x2")];
     names := [("bob*example.com", plain "GBOB");
               ("frank*example.com", plain "not an address");
               ("gina*example.com",
                 {| AccountId := "GBOB"; MemoType := Some "text";
                    Memo := None |});
               ("heidi*example.com",
                 {| AccountId := "GBOB"; MemoType := Some "";
                    Memo := Some "dropped" |})];
     complianceAnswer :=
       inr {| StatusCode := 200; Body := inr "{tx}" |} |}.

(** A builder that refuses every transaction with the given message. *)
Definition refusingLibrary (msg : string) : Library string :=
  {| keypair_Parse := keypair_Parse testLibrary;
     json_Unmarshal := json_Unmarshal testLibrary;
     xdr_SafeUnmarshalBase64 := xdr_SafeUnmarshalBase64 testLibrary;
     Transaction_Err := fun _ => Some msg;
     Sign_Base64 := Sign_Base64 testLibrary |}.

(** An envelope that cannot be encoded. *)
Definition unencodableLibrary : Library string :=
  {| keypair_Parse := keypair_Parse testLibrary;
     json_Unmarshal := json_Unmarshal testLibrary;
     xdr_SafeUnmarshalBase64 := xdr_SafeUnmarshalBase64 testLibrary;
     Transaction_Err := Transaction_Err testLibrary;
     Sign_Base64 := fun _ _ => inl "xdr: encode failed" |}.

Definition noSeedConfig : Config :=
  {| Compliance := Some "http://compliance";
     IssuingSeed := None;
     NetworkPassphrase := "Test Network" |}.

Definition noComplianceConfig : Config :=
  {| Compliance := None;
     IssuingSeed := None;
     NetworkPassphrase := "Test Network" |}.

(** The state a request is in after the given calls. *)
Definition afterCalls (w : TestWorld) (cs : list (Event string string))
  : State TestWorld string string :=
  {| world := w; calls := cs |}.

Definition resolvedTo (address : string) (d : ResolvedDestination)
  : Event string string :=
  EvResolve address (inr d).

Definition loadedWith (id seq : string) : Event string string :=
  EvLoadAccount id (inr {| SequenceNumber := seq |}).

Definition nativePayment (id : string) : TransactionMutator :=
  b_Payment [Destination id; NativeAmount "10"].

(** ** Proof steps for running the handler *)

Ltac unfold_monad :=
  unfold bind, call, record, fail, respond, ret, panic, start, finish in *;
  cbn [world calls fst snd app] in *.

(** The stages up to the memo dispatch; [construct] is left folded. *)
Ltac unfold_stages :=
  unfold directAssembly, beforeDispatch, resolveDestination, selectOperation,
    memoPolicy, memoDispatch, nonempty in *;
  unfold_monad.

Ltac unfold_construct :=
  unfold construct, loadSequence, buildAndSubmit, transactionMutators in *;
  unfold_monad.

Ltac unfold_handler :=
  unfold handle, Payment, complianceRelay in *;
  unfold_stages; unfold_construct.

(** The leftmost test a boolean expression is made of. *)
Ltac bool_atom b :=
  lazymatch b with
  | negb ?a => bool_atom a
  | andb ?a _ => bool_atom a
  | orb ?a _ => bool_atom a
  | Bool.eqb ?a _ => bool_atom a
  | _ => b
  end.

Ltac simpl_cases :=
  cbn [world calls fst snd app negb andb orb Bool.eqb] in *.

(** One case distinction on the innermost scrutinee of the goal; a test
    already decided is not decided again. *)
Ltac case_step :=
  match goal with
  | |- context [match ?x with _ => _ end] =>
      lazymatch x with
      | context [match _ with _ => _ end] => fail
      | _ =>
          let a := bool_atom x in
          first [ match goal with E : a = _ |- _ => rewrite E end
                | destruct a eqn:? ];
          simpl_cases
      end
  end.

Ltac cases := repeat case_step.

(** The same on the scrutinees of a hypothesis. *)
Ltac cases_in H :=
  repeat match type of H with
         | context [match ?x with _ => _ end] =>
             lazymatch x with
             | context [match _ with _ => _ end] => fail
             | _ =>
                 let a := bool_atom x in
                 first [ match goal with E : a = _ |- _ => rewrite E in H end
                       | destruct a eqn:? ];
                 simpl_cases
             end
         end.

(** Membership in an explicit list. *)
Ltac in_list H :=
  repeat match type of H with
         | In _ [] => destruct H
         | In _ (_ :: _) => destruct H as [H | H]; [subst |]
         | _ \/ _ => destruct H as [H | H]; [subst |]
         | False => destruct H
         end.

Example scenario_memo_id :
  testHandle testWorld
    {| source := "SALICE"; destination := "bob*example.com"; amount := "10";
       asset_code := ""; asset_issuer := ""; memo_type := "id"; memo := "42";
       extra_memo := ""; sender := "" |}
  = (Written (Submitted "submitted"),
     [ EvResolve "bob*example.com" (inr (plain "GBOB"));
       EvLoadAccount "GBOB" (inr {| SequenceNumber := "7" |});
       EvLoadAccount "GALICE" (inr {| SequenceNumber := "41" |});
       EvTransaction
         [ SourceAccount "SALICE"; Sequence 42; Network "Test Network";
           b_Payment [Destination "GBOB"; NativeAmount "10"]; MemoID 42 ];
       EvSubmitTransaction "signed by SALICE" (inr "submitted") ]).
Proof. vm_compute. reflexivity. Qed.

Example ParseUint_42 : strconv.ParseUint "42" = inr 42.
Proof. reflexivity. Qed.

Example ParseUint_max :
  strconv.ParseUint "18446744073709551615" = inr 18446744073709551615.
Proof. vm_compute. reflexivity. Qed.

Example ParseUint_overflow :
  strconv.ParseUint "18446744073709551616" = inl strconv.ErrRange.
Proof. vm_compute. reflexivity. Qed.

Example ParseUint_sign : strconv.ParseUint "+1" = inl strconv.ErrSyntax.
Proof. reflexivity. Qed.

Example DecodeString_ab : hex.DecodeString "0aFf" = Some [10; 255].
Proof. reflexivity. Qed.

Example Contains_amount :
  strings.Contains "build: cannot parse amount: x" "cannot parse amount" = true.
Proof. reflexivity. Qed.

(** ** Properties of the library functions *)

Lemma string_pair_ind (P : string -> Prop) :
  P "" ->
  (forall c, P (String c "")) ->
  (forall a b s, P s -> P (String a (String b s))) ->
  forall s, P s.
Proof.
  intros H0 H1 H2 s.
  enough (P s /\ forall c, P (String c s)) by tauto.
  induction s as [|c s [IHs IHc]]; split; auto.
Qed.

Lemma parse_loop_range s : forall n v,
  0 <= n <= strconv.maxUint64 ->
  strconv.parse_loop s n = inr v -> 0 <= v <= strconv.maxUint64.
Proof.
  induction s as [|c s IH]; intros n v Hn H; simpl in H.
  - inversion H; subst; exact Hn.
  - destruct (strconv.digit c) as [d|]; [|discriminate].
    destruct (d >=? 10); [discriminate|].
    destruct (n >=? strconv.cutoff); [discriminate|].
    destruct (_ || _) eqn:E; [discriminate|].
    refine (IH _ _ _ H).
    pose proof (Z.mod_pos_bound (((n * 10) mod uint64_modulus) + d)
                  uint64_modulus ltac:(reflexivity)).
    unfold strconv.maxUint64. lia.
Qed.

Lemma ParseUint_range s v :
  strconv.ParseUint s = inr v -> 0 <= v < uint64_modulus.
Proof.
  intros H.
  assert (0 <= v <= strconv.maxUint64) as R.
  { destruct s; [discriminate|].
    apply (parse_loop_range (String a s) 0 v);
      [vm_compute; split; discriminate | exact H]. }
  unfold strconv.maxUint64 in R. lia.
Qed.

Lemma digit_decimal c d :
  strconv.digit c = Some d -> d < 10 ->
  strconv.isDigit c = true /\ d = byte_of c - 48.
Proof.
  unfold strconv.digit, strconv.isDigit. intros H Hd.
  destruct ((48 <=? byte_of c) && (byte_of c <=? 57)).
  - inversion H; subst; auto.
  - destruct ((97 <=? strconv.lower (byte_of c))
              && (strconv.lower (byte_of c) <=? 122)) eqn:E; [|discriminate].
    inversion H; subst. apply andb_true_iff in E. lia.
Qed.

Lemma isDigit_digit c :
  strconv.isDigit c = true ->
  strconv.digit c = Some (byte_of c - 48) /\ 0 <= byte_of c - 48 < 10.
Proof.
  unfold strconv.digit, strconv.isDigit. intros H. rewrite H.
  apply andb_true_iff in H. split; [reflexivity | lia].
Qed.

Lemma decimal_from_ge s : forall n,
  strconv.allDigits s = true -> 0 <= n -> n <= strconv.decimal_from s n.
Proof.
  induction s as [|c s IH]; intros n A Hn; cbn [strconv.decimal_from].
  - lia.
  - cbn [strconv.allDigits] in A. apply andb_true_iff in A.
    destruct A as [Hc A]. apply isDigit_digit in Hc.
    specialize (IH (n * 10 + (byte_of c - 48)) A). lia.
Qed.

(** What the loop accepts is a string of decimal digits, and its result
    is the number they denote. *)
Lemma parse_loop_sound s : forall n v,
  0 <= n <= strconv.maxUint64 ->
  strconv.parse_loop s n = inr v ->
  strconv.allDigits s = true /\ v = strconv.decimal_from s n.
Proof.
  induction s as [|c s IH]; intros n v Hn H; cbn [strconv.parse_loop] in H.
  - inversion H; subst; auto.
  - destruct (strconv.digit c) as [d|] eqn:Ed; [|discriminate].
    destruct (Z.geb_spec d 10); [discriminate|].
    destruct (Z.geb_spec n strconv.cutoff) as [|Hc]; [discriminate|].
    destruct (_ || _) eqn:E; [discriminate|].
    destruct (digit_decimal _ _ Ed ltac:(lia)) as [Hdig ->].
    apply isDigit_digit in Hdig as Hr. destruct Hr as [_ Hr].
    apply orb_false_iff in E. destruct E as [E1 E2].
    unfold strconv.cutoff, strconv.maxUint64, uint64_modulus in *.
    change (2 ^ 64) with 18446744073709551616 in *.
    change ((18446744073709551616 - 1) / 10 + 1) with 1844674407370955162 in Hc.
    assert ((n * 10) mod 18446744073709551616 = n * 10) as Hm
      by (apply Z.mod_small; lia).
    rewrite Hm in *.
    assert ((n * 10 + (byte_of c - 48)) mod 18446744073709551616
            = n * 10 + (byte_of c - 48)) as Hs.
    { destruct (Z_lt_ge_dec (n * 10 + (byte_of c - 48)) 18446744073709551616)
        as [Hlt|Hge]; [apply Z.mod_small; lia|].
      exfalso.
      replace (n * 10 + (byte_of c - 48))
        with ((n * 10 + (byte_of c - 48) - 18446744073709551616)
              + 1 * 18446744073709551616) in E1 by lia.
      rewrite Z.mod_add in E1 by lia.
      rewrite Z.mod_small in E1 by lia. lia. }
    rewrite Hs in *.
    apply IH in H; [|lia]. destruct H as [A ->].
    cbn [strconv.allDigits strconv.decimal_from]. rewrite Hdig, A. auto.
Qed.

Lemma parse_loop_complete s : forall n,
  strconv.allDigits s = true -> 0 <= n ->
  strconv.decimal_from s n <= strconv.maxUint64 ->
  strconv.parse_loop s n = inr (strconv.decimal_from s n).
Proof.
  induction s as [|c s IH]; intros n A Hn Hmax;
    cbn [strconv.parse_loop strconv.decimal_from] in *.
  - reflexivity.
  - cbn [strconv.allDigits] in A. apply andb_true_iff in A.
    destruct A as [Hc A]. destruct (isDigit_digit _ Hc) as [Ed Hr].
    rewrite Ed.
    pose proof (decimal_from_ge s (n * 10 + (byte_of c - 48)) A ltac:(lia)).
    unfold strconv.cutoff, strconv.maxUint64, uint64_modulus in *.
    change (2 ^ 64) with 18446744073709551616 in *.
    change ((18446744073709551616 - 1) / 10 + 1) with 1844674407370955162.
    destruct (Z.geb_spec (byte_of c - 48) 10); [lia|].
    destruct (Z.geb_spec n 1844674407370955162); [lia|].
    rewrite (Z.mod_small (n * 10)) by lia.
    rewrite (Z.mod_small (n * 10 + (byte_of c - 48))) by lia.
    destruct (Z.ltb_spec (n * 10 + (byte_of c - 48)) (n * 10)); [lia|].
    destruct (Z.gtb_spec (n * 10 + (byte_of c - 48)) (18446744073709551616 - 1));
      [lia|].
    cbn [orb]. apply IH; [exact A | lia | exact Hmax].
Qed.

(** [ParseUint(s, 10, 64)] succeeds exactly on the non-empty strings of
    decimal digits that denote a number below 2^64, with that number. *)
Lemma ParseUint_spec s v :
  strconv.ParseUint s = inr v
  <-> s <> "" /\ strconv.allDigits s = true
      /\ strconv.decimal s = v /\ v < uint64_modulus.
Proof.
  split.
  - intros H. pose proof (ParseUint_range _ _ H) as R.
    destruct s as [|c s]; [discriminate|].
    destruct (parse_loop_sound (String c s) 0 v) as [A E];
      [vm_compute; split; discriminate | exact H |].
    split; [discriminate|]. split; [exact A|]. split; [symmetry; exact E|].
    lia.
  - intros [Hne [A [E Hv]]]. destruct s as [|c s]; [contradiction|].
    unfold strconv.ParseUint. rewrite <- E. unfold strconv.decimal.
    apply parse_loop_complete; [exact A | lia |].
    fold (strconv.decimal (String c s)). rewrite E.
    unfold strconv.maxUint64. lia.
Qed.




Lemma fromHexChar_range c v : hex.fromHexChar c = Some v -> 0 <= v < 16.
Proof.
  unfold hex.fromHexChar. intros H.
  repeat match type of H with
         | (if ?b then _ else _) = _ => destruct b eqn:?
         end; inversion H; subst; lia.
Qed.

(** Every decoded value is a byte. *)
Lemma DecodeString_bytes s : forall bs,
  hex.DecodeString s = Some bs -> Forall (fun b => 0 <= b < 256) bs.
Proof.
  induction s as [| c | a b s IH] using string_pair_ind; intros bs H.
  - inversion H; subst; constructor.
  - discriminate.
  - cbn [hex.DecodeString] in H.
    destruct (hex.fromHexChar a) as [x|] eqn:Ea; [|discriminate].
    destruct (hex.fromHexChar b) as [y|] eqn:Eb; [|discriminate].
    destruct (hex.DecodeString s) as [bs'|]; [|discriminate].
    inversion H; subst. constructor; [|apply IH; reflexivity].
    apply fromHexChar_range in Ea, Eb.
    assert (x = 0 \/ x = 1 \/ x = 2 \/ x = 3 \/ x = 4 \/ x = 5 \/ x = 6 \/ x = 7 \/
            x = 8 \/ x = 9 \/ x = 10 \/ x = 11 \/ x = 12 \/ x = 13 \/ x = 14 \/
            x = 15) as Hx by lia.
    assert (y = 0 \/ y = 1 \/ y = 2 \/ y = 3 \/ y = 4 \/ y = 5 \/ y = 6 \/ y = 7 \/
            y = 8 \/ y = 9 \/ y = 10 \/ y = 11 \/ y = 12 \/ y = 13 \/ y = 14 \/
            y = 15) as Hy by lia.
    repeat (destruct Hx as [Hx|Hx]); subst x;
      repeat (destruct Hy as [Hy|Hy]); subst y; vm_compute; split; congruence.
Qed.

(** ** Properties of the handler *)

Section Properties.

Context {World SubmitTransactionResponse XdrTransaction : Type}.
Variable lib : Library XdrTransaction.
Variable env : Collaborators World SubmitTransactionResponse XdrTransaction.
Variable cfg : Config.


Lemma handle_direct req w kp :
  keypair_Parse lib (source req) = inr kp ->
  compliancePath cfg req = None ->
  handle lib env cfg req w = finish (directAssembly lib env cfg req kp (start w)).
Proof. intros H P. unfold handle, Payment. rewrite H, P. reflexivity. Qed.

Lemma handle_relay req w kp compliance :
  keypair_Parse lib (source req) = inr kp ->
  compliancePath cfg req = Some compliance ->
  handle lib env cfg req w = finish (complianceRelay lib env cfg req kp compliance (start w)).
Proof. intros H P. unfold handle, Payment. rewrite H, P. reflexivity. Qed.

Lemma finish_calls (r : (Outcome SubmitTransactionResponse + Empty_set)
                         * State World SubmitTransactionResponse XdrTransaction) :
  snd (finish r) = calls (snd r).
Proof. destruct r as [[o|[]] s]; reflexivity. Qed.

Lemma built_app (a b : list (Event SubmitTransactionResponse XdrTransaction)) :
  built (a ++ b) = (built a ++ built b)%list.
Proof. apply flat_map_app. Qed.

(** From the dispatch on, the request is the dispatch of the pair that
    entered it followed by the construction. *)
Lemma directAssembly_from_dispatch req kp s op memoType memo s1 :
  beforeDispatch lib env req s = (inr (op, (memoType, memo)), s1) ->
  directAssembly lib env cfg req kp s
  = bind (memoDispatch memoType memo) (construct lib env cfg req kp op) s1.
Proof.
  intros H. unfold directAssembly. unfold bind at 1. rewrite H. reflexivity.
Qed.

Lemma beforeDispatch_stages req s d s1 op s2 :
  resolveDestination lib env req s = (inr d, s1) ->
  selectOperation lib env req d s1 = (inr op, s2) ->
  beforeDispatch lib env req s
  = match memoPolicy req d s2 with
    | (inl o, s3) => (inl o, s3)
    | (inr entered, s3) => (inr (op, entered), s3)
    end.
Proof.
  intros Hr Ho. unfold beforeDispatch, bind, ret. rewrite Hr, Ho.
  destruct (memoPolicy req d s2) as [[o|entered] s3]; reflexivity.
Qed.

(** The dispatch makes no call; it refuses exactly the refused pairs,
    with InvalidMemo. *)
Lemma memoDispatch_refused memoType memo
    (s : State World SubmitTransactionResponse XdrTransaction) :
  refusedMemo memoType memo = true ->
  memoDispatch memoType memo s
  = (inl (Written (ErrorResponse PaymentInvalidMemo)), s).
Proof.
  unfold refusedMemo, memoDispatch, fail, respond, ret.
  intros H. cases; try discriminate; reflexivity.
Qed.

Lemma memoDispatch_accepted memoType memo
    (s : State World SubmitTransactionResponse XdrTransaction) :
  refusedMemo memoType memo = false ->
  exists memoMutator,
    memoDispatch memoType memo s = (inr memoMutator, s)
    /\ match memoMutator with
       | None => memoType = ""
       | Some m => is_memo m = true
       end.
Proof.
  unfold refusedMemo, memoDispatch, fail, respond, ret.
  intros H. cases; try discriminate; eexists; (split; [reflexivity|]);
    try reflexivity.
  apply String.eqb_eq. assumption.
Qed.

(** What enters the dispatch: an operation, and no transaction built
    so far. *)
Lemma beforeDispatch_inv req s op entered s1 :
  beforeDispatch lib env req s = (inr (op, entered), s1) ->
  is_operation op = true /\ built (calls s1) = built (calls s).
Proof.
  unfold_stages. intros H.
  cases_in H; try discriminate; injection H as <- <- <-; cbn [calls];
    rewrite ?built_app; cbn; rewrite ?app_nil_r; auto.
Qed.

(** The construction builds at most the transaction of its arguments. *)
Lemma construct_built req kp op memoMutator s muts :
  In muts (built (calls (snd (construct lib env cfg req kp op memoMutator s)))) ->
  In muts (built (calls s))
  \/ exists n, muts = transactionMutators cfg req op memoMutator n.
Proof.
  unfold_construct. fold (transactionMutators cfg req op memoMutator).
  cases; cbn [snd calls]; rewrite ?built_app; cbn; rewrite ?app_nil_r;
    intros H; auto;
    apply in_app_or in H; destruct H as [H|H]; auto;
    in_list H; right; eexists; reflexivity.
Qed.

(** The construction does build it once the source account loads with a
    sequence number that parses. *)
Lemma construct_builds req kp op memoMutator s acct w1 n :
  Horizon_LoadAccount env (Address kp) (world s) = (inr acct, w1) ->
  strconv.ParseUint (SequenceNumber acct) = inr n ->
  In (transactionMutators cfg req op memoMutator n)
     (built (calls (snd (construct lib env cfg req kp op memoMutator s)))).
Proof.
  intros Hl Hp. unfold_construct.
  fold (transactionMutators cfg req op memoMutator).
  rewrite Hl. cbn [world calls]. rewrite Hp.
  cases; cbn [snd calls]; rewrite !built_app; cbn; rewrite ?app_nil_r;
    apply in_or_app; right; left; reflexivity.
Qed.

Lemma memos_transactionMutators req op memoMutator n :
  is_operation op = true ->
  memos (transactionMutators cfg req op memoMutator n)
  = match memoMutator with
    | Some m => if is_memo m then [m] else []
    | None => []
    end.
Proof.
  intros H. unfold transactionMutators, memos. cbn.
  destruct op; try discriminate H; destruct memoMutator; reflexivity.
Qed.

Lemma directAssembly_stopped req kp s o s1 :
  beforeDispatch lib env req s = (inl o, s1) ->
  directAssembly lib env cfg req kp s = (inl o, s1).
Proof.
  intros H. unfold directAssembly. unfold bind at 1. rewrite H. reflexivity.
Qed.


(** The memo policy makes no call. *)
Lemma memoPolicy_state req d
    (s : State World SubmitTransactionResponse XdrTransaction) :
  snd (memoPolicy req d s) = s.
Proof. unfold_stages. cases; reflexivity. Qed.


(** No code of the handler stands for the kind UnsupportedMemoType. *)
Lemma no_unsupported_memo_type_code c : kind_of c <> UnsupportedMemoType.
Proof. destruct c; discriminate. Qed.

(** C8: on the compliance-relay path, a transport error, an unreadable
    body, a status other than 200 or a body that holds no transaction
    ends the request with ServerError; the relay was called once and
    nothing else was: no retry, and no stage of direct assembly
    (resolution, ledger query, building, submission) is entered. *)
Theorem relay_failure_is_server_error req w kp compliance ans w1 :
  keypair_Parse lib (source req) = inr kp ->
  compliancePath cfg req = Some compliance ->
  http_PostForm env (compliance ++ "/send") (complianceValues req kp) w
    = (ans, w1) ->
  relayFailed lib ans = true ->
  handle lib env cfg req w =
    (Written (ErrorResponse ServerError),
     [EvPostForm (compliance ++ "/send") (complianceValues req kp) ans]).
Proof.
  intros Hs Hp Hc Hf. rewrite (handle_relay _ _ _ _ Hs Hp).
  unfold relayFailed in Hf. unfold_handler. rewrite Hc.
  cases; try reflexivity; try discriminate.
Qed.


(** C2, amended: a direct-assembly request with exactly one of
    asset_code and asset_issuer non-empty makes one call only, the
    resolution of the destination, hence no submission and no ledger
    query; it fails with MissingAssetParameter when the destination
    resolves to a well-formed account, and with the error of the
    resolution stage otherwise. *)
Theorem missing_asset_parameter_direct req w kp ans w1 :
  keypair_Parse lib (source req) = inr kp ->
  compliancePath cfg req = None ->
  nonempty (asset_code req) <> nonempty (asset_issuer req) ->
  federation_Resolve env (destination req) w = (ans, w1) ->
  fst (handle lib env cfg req w)
  = Written (ErrorResponse
      match ans with
      | inl _ => PaymentCannotResolveDestination
      | inr d =>
          match keypair_Parse lib (AccountId d) with
          | inl _ => PaymentInvalidDestination
          | inr _ => PaymentMissingParamAsset
          end
      end)
  /\ snd (handle lib env cfg req w) = [EvResolve (destination req) ans]
  /\ submissions (snd (handle lib env cfg req w)) = [].
Proof.
  intros Hs Hp Ha Hr. rewrite (handle_direct _ w kp Hs Hp).
  unfold_stages. rewrite Hr. cbn [world calls].
  cases; try (exfalso; apply Ha; reflexivity); repeat split; reflexivity.
Qed.

(** C3: on the direct path with asset_code and asset_issuer both empty,
    when the probe of the resolved destination account fails, the
    operation selected is CreateAccount, and every transaction the
    request builds carries that one operation and no Payment. *)
Theorem native_unfunded_destination_creates_account req w kp d w1 e w2 :
  keypair_Parse lib (source req) = inr kp ->
  compliancePath cfg req = None ->
  asset_code req = "" ->
  asset_issuer req = "" ->
  federation_Resolve env (destination req) w = (inr d, w1) ->
  Horizon_LoadAccount env (AccountId d) w1 = (inl e, w2) ->
  let createAccount :=
    b_CreateAccount [Destination (AccountId d); NativeAmount (amount req)] in
  (forall cs,
      selectOperation lib env req d {| world := w1; calls := cs |}
      = (inr createAccount,
         {| world := w2;
            calls := cs ++ [EvLoadAccount (AccountId d) (inl e)] |}))
  /\ (forall muts,
        In muts (built (snd (handle lib env cfg req w))) ->
        operations muts = [createAccount]).
Proof.
  intros Hs Hp Hc Hi Hr Hl createAccount. split.
  - intros cs. unfold_stages. rewrite Hc, Hi. cbn. rewrite Hl. reflexivity.
  - rewrite (handle_direct _ w kp Hs Hp).
    unfold_stages. rewrite Hr. cbn [world calls]. rewrite Hc, Hi.
    cbn [String.eqb negb andb]. unfold_construct.
    case_step; [cbn; tauto|]. rewrite Hl. cbn [world calls app].
    cases; cbn; intros muts Hin; in_list Hin; reflexivity.
Qed.

(** A CreateAccount operation is only ever selected with asset_code and
    asset_issuer both empty. *)
Lemma create_account_only_native req d s muts s' :
  selectOperation lib env req d s = (inr (b_CreateAccount muts), s') ->
  asset_code req = "" /\ asset_issuer req = "".
Proof.
  unfold_stages. intros H.
  destruct (asset_code req); destruct (asset_issuer req);
    cbn in H; cases_in H; try discriminate; auto.
Qed.

(** C10: on the direct path with asset_code and asset_issuer both
    non-empty, asset selection makes no call and yields a Payment of the
    credit asset (or InvalidIssuer), never CreateAccount, so the
    existence of the destination account is never probed: the only
    account the request may load is the source account, once; and every
    transaction the request builds carries one operation, a Payment of
    the credit asset to the resolved account. *)
Theorem credit_asset_never_probes req w kp :
  keypair_Parse lib (source req) = inr kp ->
  compliancePath cfg req = None ->
  nonempty (asset_code req) = true ->
  nonempty (asset_issuer req) = true ->
  (forall d s,
      selectOperation lib env req d s
      = match keypair_Parse lib (asset_issuer req) with
        | inl _ => (inl (Written (ErrorResponse PaymentInvalidIssuer)), s)
        | inr issuerKeypair =>
            (inr (b_Payment
                    [ Destination (AccountId d);
                      CreditAmount (asset_code req) (Address issuerKeypair)
                        (amount req) ]), s)
        end)
  /\ (forall d s muts s',
        selectOperation lib env req d s <> (inr (b_CreateAccount muts), s'))
  /\ (loadedAccounts (snd (handle lib env cfg req w)) = []
      \/ loadedAccounts (snd (handle lib env cfg req w)) = [Address kp])
  /\ (forall muts,
        In muts (built (snd (handle lib env cfg req w))) ->
        exists d w1 issuerKeypair,
          federation_Resolve env (destination req) w = (inr d, w1)
          /\ keypair_Parse lib (asset_issuer req) = inr issuerKeypair
          /\ operations muts
             = [b_Payment
                  [ Destination (AccountId d);
                    CreditAmount (asset_code req) (Address issuerKeypair)
                      (amount req) ]]).
Proof.
  intros Hs Hp Hc Hi. split; [|split; [|split]].
  - intros d s. unfold selectOperation, fail, respond, ret.
    rewrite Hc, Hi. cbn [andb]. cases; reflexivity.
  - intros d s muts s' H. apply create_account_only_native in H.
    destruct H as [H _]. rewrite H in Hc. discriminate Hc.
  - rewrite (handle_direct _ w kp Hs Hp).
    unfold_stages. rewrite Hc, Hi. cbn [andb]. unfold_construct.
    cases; cbn; auto.
  - rewrite (handle_direct _ w kp Hs Hp).
    unfold_stages. rewrite Hc, Hi. cbn [andb]. unfold_construct.
    cases; cbn; intros muts Hin; in_list Hin;
      do 3 eexists; repeat split; reflexivity.
Qed.

(** C7, amended: every transaction a direct-assembly request builds is
    built right after the one load of the source account whose sequence
    number it uses; the sequence number placed in it is that snapshot
    plus one in unsigned 64-bit arithmetic, which is the snapshot plus
    one below the largest value and zero at it.  Before that load the
    only calls are the resolution and, for the native asset, the probe
    of the destination; after the build no account is loaded and no
    transaction is built again. *)
Theorem sequence_is_snapshot_plus_one_wrapping req w kp muts :
  keypair_Parse lib (source req) = inr kp ->
  compliancePath cfg req = None ->
  In muts (built (snd (handle lib env cfg req w))) ->
  exists d probe acct n post,
    snd (handle lib env cfg req w)
    = ((EvResolve (destination req) (inr d) :: probe)
       ++ [EvLoadAccount (Address kp) (inr acct); EvTransaction muts]
       ++ post)%list
    /\ (probe = [] \/ exists ans, probe = [EvLoadAccount (AccountId d) ans])
    /\ strconv.ParseUint (SequenceNumber acct) = inr n
    /\ sequences muts = [Sequence ((n + 1) mod uint64_modulus)]
    /\ (n < uint64_modulus - 1 -> sequences muts = [Sequence (n + 1)])
    /\ (n = uint64_modulus - 1 -> sequences muts = [Sequence 0])
    /\ built post = [] /\ loadedAccounts post = [].
Proof.
  intros Hs Hp. rewrite (handle_direct _ w kp Hs Hp).
  unfold_stages. unfold_construct.
  cases; cbn; intros Hin; in_list Hin;
    match goal with
    | E : strconv.ParseUint _ = inr ?n |- _ =>
        pose proof (ParseUint_range _ _ E) as Hn
    end;
    match goal with
    | E : federation_Resolve _ _ _ = (inr ?d, _) |- _ => exists d
    end;
    first [ exists []; do 3 eexists; split; [reflexivity|]
          | eexists [_]; do 3 eexists; split; [reflexivity|] ];
    (split; [solve [left; reflexivity | right; eexists; reflexivity]|]);
    (split; [eassumption|]);
    (split; [reflexivity|]);
    (split; [intros Hlt; rewrite Z.mod_small by lia; reflexivity|]);
    (split; [intros ->; reflexivity|]);
    split; reflexivity.
Qed.

(** C1, amended: a request that reaches the memo dispatch with a memo
    type other than the empty one, id, text and hash ends there, without
    a further call, with the code PaymentInvalidMemo: the kind
    InvalidMemo, the same as for a memo value that does not parse, and
    not a kind of its own. *)
Theorem unsupported_memo_type_is_invalid_memo
    req w kp op memoType memo s1 :
  keypair_Parse lib (source req) = inr kp ->
  compliancePath cfg req = None ->
  beforeDispatch lib env req (start w) = (inr (op, (memoType, memo)), s1) ->
  memoType <> "" -> memoType <> "id" ->
  memoType <> "text" -> memoType <> "hash" ->
  handle lib env cfg req w
  = (Written (ErrorResponse PaymentInvalidMemo), calls s1)
  /\ kind_of PaymentInvalidMemo = InvalidMemo
  /\ kind_of PaymentInvalidMemo <> UnsupportedMemoType.
Proof.
  intros Hs Hp Hb H0 H1 H2 H3.
  rewrite (handle_direct _ w kp Hs Hp).
  rewrite (directAssembly_from_dispatch _ _ _ _ _ _ _ Hb).
  unfold bind. rewrite memoDispatch_refused.
  - split; [reflexivity|]. split; [reflexivity | discriminate].
  - unfold refusedMemo.
    apply String.eqb_neq in H0, H1, H2, H3. rewrite H0, H1, H2, H3.
    reflexivity.
Qed.




End Properties.

(** ** The properties on concrete requests *)

Lemma relay_failure_is_server_error_witness :
  testHandle failingComplianceWorld
    (withExtraMemo "kyc" (payment "SALICE" "bob*example.com"))
  = (Written (ErrorResponse ServerError),
     [ EvPostForm "http://compliance/send"
         [ ("source", "GALICE"); ("sender", ""); ("destination", "bob*example.com");
           ("amount", "10"); ("asset_code", ""); ("asset_issuer", "");
           ("extra_memo", "kyc") ]
         (inr {| StatusCode := 500; Body := inr "error" |}) ]).
Proof.
  apply (relay_failure_is_server_error testLibrary testCollaborators testConfig
           (withExtraMemo "kyc" (payment "SALICE" "bob*example.com"))
           failingComplianceWorld {| Address := "GALICE" |}
           "http://compliance"
           (inr {| StatusCode := 500; Body := inr "error" |})
           failingComplianceWorld); reflexivity.
Defined.


(** C2 as stated fails on the relay path: with asset_code alone and an
    extra memo, the request is relayed, signed and submitted. *)
Lemma missing_asset_parameter_counterexample :
  nonempty (asset_code (withExtraMemo "kyc"
              (withAsset "USD" "" (payment "SALICE" "bob*example.com"))))
  <> nonempty (asset_issuer (withExtraMemo "kyc"
                 (withAsset "USD" "" (payment "SALICE" "bob*example.com"))))
  /\ testHandle testWorld
       (withExtraMemo "kyc"
          (withAsset "USD" "" (payment "SALICE" "bob*example.com")))
     = (Written (Submitted "submitted"),
        [ EvPostForm "http://compliance/send"
            [ ("source", "GALICE"); ("sender", "");
              ("destination", "bob*example.com"); ("amount", "10");
              ("asset_code", "USD"); ("asset_issuer", "");
              ("extra_memo", "kyc") ]
            (inr {| StatusCode := 200; Body := inr "{tx}" |});
          EvSignAndSubmitRawTransaction "SISSUER" "{tx}" (inr "submitted") ])
  /\ ~ (fst (testHandle testWorld
               (withExtraMemo "kyc"
                  (withAsset "USD" "" (payment "SALICE" "bob*example.com"))))
        = Written (ErrorResponse PaymentMissingParamAsset)
        /\ submissions
             (snd (testHandle testWorld
                     (withExtraMemo "kyc"
                        (withAsset "USD" ""
                           (payment "SALICE" "bob*example.com")))))
           = []).
Proof.
  split; [discriminate|]. split; [reflexivity|].
  intros [H _]. discriminate H.
Qed.

Lemma missing_asset_parameter_direct_witness :
  fst (testHandle testWorld
         (withAsset "USD" "" (payment "SALICE" "bob*example.com")))
  = Written (ErrorResponse PaymentMissingParamAsset)
  /\ snd (testHandle testWorld
            (withAsset "USD" "" (payment "SALICE" "bob*example.com")))
     = [EvResolve "bob*example.com" (inr (plain "GBOB"))]
  /\ submissions
       (snd (testHandle testWorld
               (withAsset "USD" "" (payment "SALICE" "bob*example.com"))))
     = [].
Proof.
  apply (missing_asset_parameter_direct testLibrary testCollaborators
           testConfig
           (withAsset "USD" "" (payment "SALICE" "bob*example.com"))
           testWorld {| Address := "GALICE" |} (inr (plain "GBOB")) testWorld);
    [reflexivity | reflexivity | discriminate | reflexivity].
Defined.

Lemma native_unfunded_destination_creates_account_witness :
  built (snd (testHandle testWorld (payment "SALICE" "carol*example.com")))
  = [[ SourceAccount "SALICE"; Sequence 42; Network "Test Network";
       b_CreateAccount [Destination "GCAROL"; NativeAmount "10"] ]]
  /\ forall muts,
      In muts
        (built (snd (testHandle testWorld
                       (payment "SALICE" "carol*example.com")))) ->
      operations muts
      = [b_CreateAccount [Destination "GCAROL"; NativeAmount "10"]].
Proof.
  split; [reflexivity|].
  apply (proj2 (native_unfunded_destination_creates_account testLibrary
                  testCollaborators testConfig
                  (payment "SALICE" "carol*example.com") testWorld
                  {| Address := "GALICE" |} (plain "GCAROL") testWorld
                  "not found" testWorld
                  eq_refl eq_refl eq_refl eq_refl eq_refl eq_refl)).
Defined.

Lemma credit_asset_never_probes_witness :
  (loadedAccounts
     (snd (testHandle testWorld
             (withAsset "USD" "GISSUER" (payment "SALICE" "bob*example.com"))))
   = []
   \/ loadedAccounts
        (snd (testHandle testWorld
                (withAsset "USD" "GISSUER"
                   (payment "SALICE" "bob*example.com"))))
      = ["GALICE"])
  /\ built (snd (testHandle testWorld
                   (withAsset "USD" "GISSUER"
                      (payment "SALICE" "bob*example.com"))))
     = [[ SourceAccount "SALICE"; Sequence 42; Network "Test Network";
          b_Payment [Destination "GBOB"; CreditAmount "USD" "GISSUER" "10"] ]].
Proof.
  split; [|reflexivity].
  apply (proj1 (proj2 (proj2
           (credit_asset_never_probes testLibrary testCollaborators testConfig
              (withAsset "USD" "GISSUER" (payment "SALICE" "bob*example.com"))
              testWorld {| Address := "GALICE" |}
              eq_refl eq_refl eq_refl eq_refl)))).
Defined.

(** C7 as stated fails at the largest unsigned 64-bit snapshot: the
    sequence number placed in the transaction is zero. *)
Lemma sequence_wraps_counterexample :
  strconv.ParseUint "18446744073709551615" = inr 18446744073709551615
  /\ testHandle testWorld (payment "SMAX" "bob*example.com")
     = (Written (Submitted "submitted"),
        [ EvResolve "bob*example.com" (inr (plain "GBOB"));
          EvLoadAccount "GBOB" (inr {| SequenceNumber := "7" |});
          EvLoadAccount "GMAX"
            (inr {| SequenceNumber := "18446744073709551615" |});
          EvTransaction
            [ SourceAccount "SMAX"; Sequence 0; Network "Test Network";
              b_Payment [Destination "GBOB"; NativeAmount "10"] ];
          EvSubmitTransaction "signed by SMAX" (inr "submitted") ])
  /\ Sequence 0 <> Sequence (18446744073709551615 + 1).
Proof.
  split; [vm_compute; reflexivity|]. split; [vm_compute; reflexivity|].
  discriminate.
Qed.

Lemma sequence_is_snapshot_plus_one_wrapping_witness :
  exists d probe acct n post,
    snd (testHandle testWorld (payment "SALICE" "bob*example.com"))
    = ((EvResolve "bob*example.com" (inr d) :: probe)
       ++ [ EvLoadAccount "GALICE" (inr acct);
            EvTransaction
              [ SourceAccount "SALICE"; Sequence 42; Network "Test Network";
                b_Payment [Destination "GBOB"; NativeAmount "10"] ] ]
       ++ post)%list
    /\ (probe = [] \/ exists ans, probe = [EvLoadAccount (AccountId d) ans])
    /\ strconv.ParseUint (SequenceNumber acct) = inr n
    /\ sequences
         [ SourceAccount "SALICE"; Sequence 42; Network "Test Network";
           b_Payment [Destination "GBOB"; NativeAmount "10"] ]
       = [Sequence ((n + 1) mod uint64_modulus)]
    /\ (n < uint64_modulus - 1 ->
        sequences
          [ SourceAccount "SALICE"; Sequence 42; Network "Test Network";
            b_Payment [Destination "GBOB"; NativeAmount "10"] ]
        = [Sequence (n + 1)])
    /\ (n = uint64_modulus - 1 ->
        sequences
          [ SourceAccount "SALICE"; Sequence 42; Network "Test Network";
            b_Payment [Destination "GBOB"; NativeAmount "10"] ]
        = [Sequence 0])
    /\ built post = [] /\ loadedAccounts post = [].
Proof.
  apply (sequence_is_snapshot_plus_one_wrapping testLibrary testCollaborators
           testConfig (payment "SALICE" "bob*example.com") testWorld
           {| Address := "GALICE" |}
           [ SourceAccount "SALICE"; Sequence 42; Network "Test Network";
             b_Payment [Destination "GBOB"; NativeAmount "10"] ]);
    [reflexivity | reflexivity | vm_compute; left; reflexivity].
Defined.

(** C1 as stated fails: the unsupported type "foo" reaches the dispatch
    and ends with the code of InvalidMemo, the same code an unparsable id
    ends with; no code stands for UnsupportedMemoType. *)
Lemma unsupported_memo_type_counterexample :
  beforeDispatch testLibrary testCollaborators
    (withMemo "foo" "x" (payment "SALICE" "bob*example.com")) (start testWorld)
  = (inr (b_Payment [Destination "GBOB"; NativeAmount "10"], ("foo", "x")),
     {| world := testWorld;
        calls := [ EvResolve "bob*example.com" (inr (plain "GBOB"));
                   EvLoadAccount "GBOB" (inr {| SequenceNumber := "7" |}) ] |})
  /\ fst (testHandle testWorld
            (withMemo "foo" "x" (payment "SALICE" "bob*example.com")))
     = Written (ErrorResponse PaymentInvalidMemo)
  /\ fst (testHandle testWorld
            (withMemo "id" "x" (payment "SALICE" "bob*example.com")))
     = Written (ErrorResponse PaymentInvalidMemo)
  /\ kind_of PaymentInvalidMemo = InvalidMemo
  /\ kind_of PaymentInvalidMemo <> UnsupportedMemoType.
Proof.
  split; [reflexivity|]. split; [reflexivity|]. split; [reflexivity|].
  split; [reflexivity | discriminate].
Qed.

Lemma unsupported_memo_type_is_invalid_memo_witness :
  testHandle testWorld (withMemo "foo" "x" (payment "SALICE" "bob*example.com"))
  = (Written (ErrorResponse PaymentInvalidMemo),
     [ EvResolve "bob*example.com" (inr (plain "GBOB"));
       EvLoadAccount "GBOB" (inr {| SequenceNumber := "7" |}) ])
  /\ kind_of PaymentInvalidMemo = InvalidMemo
  /\ kind_of PaymentInvalidMemo <> UnsupportedMemoType.
Proof.
  apply (unsupported_memo_type_is_invalid_memo testLibrary testCollaborators
           testConfig
           (withMemo "foo" "x" (payment "SALICE" "bob*example.com"))
           testWorld {| Address := "GALICE" |}
           (b_Payment [Destination "GBOB"; NativeAmount "10"]) "foo" "x"
           {| world := testWorld;
              calls := [ EvResolve "bob*example.com" (inr (plain "GBOB"));
                         EvLoadAccount "GBOB"
                           (inr {| SequenceNumber := "7" |}) ] |});
    first [reflexivity | discriminate].
Defined.



Example hash_memo_attached :
  built (snd (testHandle testWorld
                (withMemo "hash" sixtyFourHex
                   (payment "SALICE" "bob*example.com"))))
  = [[ SourceAccount "SALICE"; Sequence 42; Network "Test Network";
       b_Payment [Destination "GBOB"; NativeAmount "10"];
       MemoHash [ 0; 17; 34; 51; 68; 85; 102; 119; 136; 153; 170; 187; 204;
                  221; 238; 255; 255; 238; 221; 204; 187; 170; 153; 136; 119;
                  102; 85; 68; 51; 34; 17; 0 ] ]].
Proof. vm_compute. reflexivity. Qed.





(** ** Further properties of the handler *)

Section FurtherProperties.

Context {World SubmitTransactionResponse XdrTransaction : Type}.
Variable lib : Library XdrTransaction.
Variable env : Collaborators World SubmitTransactionResponse XdrTransaction.
Variable cfg : Config.

(** X1: on the direct path a destination that does not resolve ends the
    request with UnresolvableDestination, and one that resolves to an
    account id that is no address ends it with InvalidResolvedAccount;
    either way the resolution is the only call made, so the ledger is
    never queried. *)
Theorem resolution_failure_stops_before_ledger req w kp ans w1 :
  keypair_Parse lib (source req) = inr kp ->
  compliancePath cfg req = None ->
  federation_Resolve env (destination req) w = (ans, w1) ->
  (forall e,
      ans = inl e ->
      handle lib env cfg req w
      = (Written (ErrorResponse PaymentCannotResolveDestination),
         [EvResolve (destination req) ans]))
  /\ (forall d e,
        ans = inr d ->
        keypair_Parse lib (AccountId d) = inl e ->
        handle lib env cfg req w
        = (Written (ErrorResponse PaymentInvalidDestination),
           [EvResolve (destination req) ans])).
Proof.
  intros Hs Hp Hr. rewrite (handle_direct lib env cfg _ w kp Hs Hp).
  unfold_stages. rewrite Hr. cbn [world calls].
  split.
  - intros e ->. reflexivity.
  - intros d e -> Hk. rewrite Hk. reflexivity.
Qed.

(** X2: on the direct path, with asset_code and asset_issuer both given,
    an issuer that is no address ends the request with InvalidIssuer
    right after a successful resolution: the ledger is not queried and
    the memo fields are not looked at. *)
Theorem invalid_issuer_stops_before_ledger req w kp d k w1 e :
  keypair_Parse lib (source req) = inr kp ->
  compliancePath cfg req = None ->
  federation_Resolve env (destination req) w = (inr d, w1) ->
  keypair_Parse lib (AccountId d) = inr k ->
  nonempty (asset_code req) = true ->
  nonempty (asset_issuer req) = true ->
  keypair_Parse lib (asset_issuer req) = inl e ->
  handle lib env cfg req w
  = (Written (ErrorResponse PaymentInvalidIssuer),
     [EvResolve (destination req) (inr d)]).
Proof.
  intros Hs Hp Hr Hk Hc Hi He. rewrite (handle_direct lib env cfg _ w kp Hs Hp).
  unfold directAssembly, beforeDispatch, resolveDestination, selectOperation.
  unfold_monad. rewrite Hr. cbn [world calls]. rewrite Hk, Hc, Hi.
  cbn [andb]. rewrite He. reflexivity.
Qed.

(** X3: on the direct path with asset_code and asset_issuer both empty,
    when the probe of the resolved destination account succeeds, the
    operation selected is a Payment of the native asset, and every
    transaction the request builds carries that one operation and no
    CreateAccount. *)
Theorem native_funded_destination_is_paid req w kp d w1 acct w2 :
  keypair_Parse lib (source req) = inr kp ->
  compliancePath cfg req = None ->
  asset_code req = "" ->
  asset_issuer req = "" ->
  federation_Resolve env (destination req) w = (inr d, w1) ->
  Horizon_LoadAccount env (AccountId d) w1 = (inr acct, w2) ->
  (forall cs,
      selectOperation lib env req d {| world := w1; calls := cs |}
      = (inr (b_Payment [Destination (AccountId d); NativeAmount (amount req)]),
         {| world := w2;
            calls := cs ++ [EvLoadAccount (AccountId d) (inr acct)] |}))
  /\ (forall muts,
        In muts (built (snd (handle lib env cfg req w))) ->
        operations muts
        = [b_Payment [Destination (AccountId d); NativeAmount (amount req)]]).
Proof.
  intros Hs Hp Hc Hi Hr Hl. split.
  - intros cs. unfold_stages. rewrite Hc, Hi. cbn. rewrite Hl. reflexivity.
  - rewrite (handle_direct lib env cfg _ w kp Hs Hp).
    unfold_stages. rewrite Hr. cbn [world calls]. rewrite Hc, Hi.
    cbn [String.eqb negb andb]. unfold_construct.
    case_step; [cbn; tauto|]. rewrite Hl. cbn [world calls app].
    cases; cbn; intros muts Hin; in_list Hin; reflexivity.
Qed.

(** X4: a direct-assembly request that passes resolution and asset
    selection with exactly one of memo_type and memo non-empty ends with
    MissingMemoParameter without a further call, whether or not the
    destination mandates a memo. *)
Theorem one_memo_parameter_is_refused req w kp d s1 op s2 :
  keypair_Parse lib (source req) = inr kp ->
  compliancePath cfg req = None ->
  resolveDestination lib env req (start w) = (inr d, s1) ->
  selectOperation lib env req d s1 = (inr op, s2) ->
  nonempty (memo_type req) <> nonempty (memo req) ->
  handle lib env cfg req w
  = (Written (ErrorResponse PaymentMissingParamMemo), calls s2).
Proof.
  intros Hs Hp Hr Ho Hm. rewrite (handle_direct lib env cfg _ w kp Hs Hp).
  rewrite (directAssembly_stopped lib env cfg _ kp _
             (Written (ErrorResponse PaymentMissingParamMemo)) s2);
    [reflexivity|].
  rewrite (beforeDispatch_stages lib env _ _ _ _ _ _ Hr Ho).
  unfold memoPolicy, fail, respond.
  destruct (nonempty (memo_type req)); destruct (nonempty (memo req));
    try (exfalso; apply Hm; reflexivity); reflexivity.
Qed.

(** X5: a direct-assembly request that passes resolution and asset
    selection, supplies no memo, and whose destination mandates a memo
    type without a memo value dereferences a nil pointer: the handler
    panics and writes no response. *)
Theorem mandated_type_without_memo_panics req w kp d s1 op s2 mandatedType :
  keypair_Parse lib (source req) = inr kp ->
  compliancePath cfg req = None ->
  resolveDestination lib env req (start w) = (inr d, s1) ->
  selectOperation lib env req d s1 = (inr op, s2) ->
  memo_type req = "" -> memo req = "" ->
  MemoType d = Some mandatedType -> Memo d = None ->
  handle lib env cfg req w = (NilDereference, calls s2).
Proof.
  intros Hs Hp Hr Ho Ht Hm HT HM.
  rewrite (handle_direct lib env cfg _ w kp Hs Hp).
  rewrite (directAssembly_stopped lib env cfg _ kp _ NilDereference s2);
    [reflexivity|].
  rewrite (beforeDispatch_stages lib env _ _ _ _ _ _ Hr Ho).
  unfold memoPolicy, panic. rewrite Ht, Hm, HT, HM. reflexivity.
Qed.

(** X6: a request that reaches the memo dispatch with the memo type id
    goes on to construction exactly when the memo value is a non-empty
    string of decimal digits denoting a number below 2^64; every
    transaction it then builds carries that number as its only memo
    (leading zeros are dropped, a sign is not accepted).  Any other value
    ends the request at the dispatch with InvalidMemo. *)
Theorem id_memo_dispatch req w kp op memo s1 :
  keypair_Parse lib (source req) = inr kp ->
  compliancePath cfg req = None ->
  beforeDispatch lib env req (start w) = (inr (op, ("id", memo)), s1) ->
  let numeric :=
    memo <> "" /\ strconv.allDigits memo = true
    /\ strconv.decimal memo < uint64_modulus in
  (numeric ->
   handle lib env cfg req w
   = finish (construct lib env cfg req kp op
               (Some (MemoID (strconv.decimal memo))) s1)
   /\ forall muts,
       In muts (built (snd (handle lib env cfg req w))) ->
       memos muts = [MemoID (strconv.decimal memo)])
  /\ (~ numeric ->
      handle lib env cfg req w
      = (Written (ErrorResponse PaymentInvalidMemo), calls s1)).
Proof.
  intros Hs Hp Hb numeric.
  rewrite (handle_direct lib env cfg _ w kp Hs Hp).
  rewrite (directAssembly_from_dispatch lib env cfg _ _ _ _ _ _ _ Hb).
  destruct (beforeDispatch_inv lib env _ _ _ _ _ Hb) as [Hop Hbuilt].
  unfold bind, memoDispatch, fail, respond, ret.
  cbn [String.eqb Ascii.eqb Bool.eqb].
  split.
  - intros [Hne [Hd Hlt]].
    assert (strconv.ParseUint memo = inr (strconv.decimal memo)) as P
      by (apply ParseUint_spec; auto).
    rewrite P. split; [reflexivity|].
    intros muts Hin. rewrite finish_calls in Hin.
    apply construct_built in Hin. rewrite Hbuilt in Hin.
    destruct Hin as [[]|[n ->]].
    rewrite (memos_transactionMutators cfg _ _ _ _ Hop). reflexivity.
  - intros Hn. destruct (strconv.ParseUint memo) as [e|v] eqn:P;
      [reflexivity|].
    exfalso. apply Hn. apply ParseUint_spec in P.
    destruct P as [Hne [Hd [He Hlt]]]. unfold numeric. rewrite He. auto.
Qed.

(** X7: the dispatch never refuses a text memo or an empty memo type.  A
    request that reaches it with the type text goes on to construction
    and every transaction it builds carries the memo value, unchanged and
    unchecked, as its only memo; one that reaches it with the empty type
    (no memo, or a mandated memo whose type is empty) builds transactions
    without any memo. *)
Theorem text_and_absent_memo_dispatch req w kp op memo s1 :
  keypair_Parse lib (source req) = inr kp ->
  compliancePath cfg req = None ->
  (beforeDispatch lib env req (start w) = (inr (op, ("text", memo)), s1) ->
   handle lib env cfg req w
   = finish (construct lib env cfg req kp op (Some (MemoText memo)) s1)
   /\ forall muts,
       In muts (built (snd (handle lib env cfg req w))) ->
       memos muts = [MemoText memo])
  /\ (beforeDispatch lib env req (start w) = (inr (op, ("", memo)), s1) ->
      handle lib env cfg req w
      = finish (construct lib env cfg req kp op None s1)
      /\ forall muts,
          In muts (built (snd (handle lib env cfg req w))) ->
          memos muts = []).
Proof.
  intros Hs Hp. rewrite (handle_direct lib env cfg _ w kp Hs Hp).
  split; intros Hb;
    rewrite (directAssembly_from_dispatch lib env cfg _ _ _ _ _ _ _ Hb);
    destruct (beforeDispatch_inv lib env _ _ _ _ _ Hb) as [Hop Hbuilt];
    (split; [reflexivity|]);
    intros muts Hin; rewrite finish_calls in Hin;
    unfold bind, memoDispatch, ret in Hin;
    cbn [String.eqb Ascii.eqb Bool.eqb] in Hin;
    apply construct_built in Hin; rewrite Hbuilt in Hin;
    destruct Hin as [[]|[n ->]];
    rewrite (memos_transactionMutators cfg _ _ _ _ Hop); reflexivity.
Qed.

(** X8: once the memo dispatch has passed, a source account that does
    not load ends the request with SourceAccountNotFound, and one whose
    sequence number is no unsigned 64-bit decimal ends it with
    ServerError; in both cases the load is the last call and no
    transaction is built or submitted. *)
Theorem source_snapshot_failures
    req w kp op memoType memoValue s1 memoMutator ans w2 :
  keypair_Parse lib (source req) = inr kp ->
  compliancePath cfg req = None ->
  beforeDispatch lib env req (start w)
  = (inr (op, (memoType, memoValue)), s1) ->
  memoDispatch memoType memoValue s1 = (inr memoMutator, s1) ->
  Horizon_LoadAccount env (Address kp) (world s1) = (ans, w2) ->
  let stopped code :=
    handle lib env cfg req w
    = (Written (ErrorResponse code),
       (calls s1 ++ [EvLoadAccount (Address kp) ans])%list)
    /\ built (snd (handle lib env cfg req w)) = []
    /\ submissions (snd (handle lib env cfg req w)) = [] in
  (forall e, ans = inl e -> stopped PaymentSourceNotExist)
  /\ (forall acct e,
        ans = inr acct ->
        strconv.ParseUint (SequenceNumber acct) = inl e ->
        stopped ServerError).
Proof.
  intros Hs Hp Hb Hd Hl stopped. unfold stopped.
  rewrite (handle_direct lib env cfg _ w kp Hs Hp).
  rewrite (directAssembly_from_dispatch lib env cfg _ _ _ _ _ _ _ Hb).
  destruct (beforeDispatch_inv lib env _ _ _ _ _ Hb) as [_ Hbuilt].
  assert (submissions (calls s1) = []) as Hsub.
  { clear - Hb. unfold_stages.
    cases_in Hb; try discriminate; injection Hb as <- <- <- <-; reflexivity. }
  split.
  - intros e ->.
    assert (bind (memoDispatch memoType memoValue)
                 (construct lib env cfg req kp op) s1
            = (inl (Written (ErrorResponse PaymentSourceNotExist)),
               {| world := w2;
                  calls := calls s1 ++ [EvLoadAccount (Address kp) (inl e)] |}))
      as E.
    { unfold bind. rewrite Hd. unfold_construct. rewrite Hl. reflexivity. }
    rewrite E. cbn [finish fst snd calls]. rewrite built_app.
    unfold submissions. rewrite filter_app. fold (submissions (calls s1)).
    rewrite Hbuilt, Hsub. auto.
  - intros acct e -> P.
    assert (bind (memoDispatch memoType memoValue)
                 (construct lib env cfg req kp op) s1
            = (inl (Written (ErrorResponse ServerError)),
               {| world := w2;
                  calls := calls s1
                           ++ [EvLoadAccount (Address kp) (inr acct)] |}))
      as E.
    { unfold bind. rewrite Hd. unfold_construct. rewrite Hl.
      cbn [world calls]. rewrite P. reflexivity. }
    rewrite E. cbn [finish fst snd calls]. rewrite built_app.
    unfold submissions. rewrite filter_app. fold (submissions (calls s1)).
    rewrite Hbuilt, Hsub. auto.
Qed.

(** X9: whenever the builder reports an error for the transaction a
    request built, nothing is signed or submitted and the error is
    classified by its text: exactly "Asset code length is invalid" gives
    MalformedAssetCode, any other text containing "cannot parse amount"
    gives InvalidAmount, and every other text gives ServerError. *)
Theorem builder_error_is_classified req w muts msg :
  In muts (built (snd (handle lib env cfg req w))) ->
  Transaction_Err lib muts = Some msg ->
  submissions (snd (handle lib env cfg req w)) = []
  /\ (msg = "Asset code length is invalid" ->
      fst (handle lib env cfg req w)
      = Written (ErrorResponse PaymentMalformedAssetCode))
  /\ (msg <> "Asset code length is invalid" ->
      strings.Contains msg "cannot parse amount" = true ->
      fst (handle lib env cfg req w)
      = Written (ErrorResponse PaymentInvalidAmount))
  /\ (msg <> "Asset code length is invalid" ->
      strings.Contains msg "cannot parse amount" = false ->
      fst (handle lib env cfg req w) = Written (ErrorResponse ServerError)).
Proof.
  unfold_handler.
  cases; cbn; intros Hin; in_list Hin; intros Herr;
    match goal with
    | E : Transaction_Err _ _ = ?x |- _ =>
        lazymatch x with
        | Some msg => fail
        | _ => assert (x = Some msg) as Hx by (rewrite <- E; exact Herr)
        end
    end;
    try discriminate Hx; injection Hx as <-;
    repeat match goal with
           | E : String.eqb _ _ = true |- _ => apply String.eqb_eq in E
           | E : String.eqb _ _ = false |- _ => apply String.eqb_neq in E
           end;
    (split; [reflexivity|]);
    repeat split; intros; try reflexivity; try contradiction; congruence.
Qed.

(** X10: MalformedAssetCode and InvalidAmount are only ever written
    after the builder refused the one transaction the request built; the
    handler itself never checks the asset code's length or the amount. *)
Theorem asset_and_amount_errors_come_from_builder req w :
  (fst (handle lib env cfg req w)
   = Written (ErrorResponse PaymentMalformedAssetCode) ->
   exists muts,
     built (snd (handle lib env cfg req w)) = [muts]
     /\ Transaction_Err lib muts = Some "Asset code length is invalid")
  /\ (fst (handle lib env cfg req w)
      = Written (ErrorResponse PaymentInvalidAmount) ->
      exists muts msg,
        built (snd (handle lib env cfg req w)) = [muts]
        /\ Transaction_Err lib muts = Some msg
        /\ strings.Contains msg "cannot parse amount" = true).
Proof.
  unfold_handler.
  cases; cbn; split; intros H; try discriminate H;
    repeat match goal with
           | E : String.eqb _ _ = true |- _ => apply String.eqb_eq in E; subst
           end;
    repeat eexists; eassumption.
Qed.

(** X11: a request makes at most one submission, as its last call, and
    the response after it is the submission's result verbatim, or
    ServerError when the submission failed.  Without a submission the
    response is never a success; hence every error other than
    ServerError means that nothing was submitted. *)
Theorem submission_is_last_and_verbatim req w :
  (submissions (snd (handle lib env cfg req w)) = []
   /\ forall r, fst (handle lib env cfg req w) <> Written (Submitted r))
  \/ exists pre e ans,
      snd (handle lib env cfg req w) = (pre ++ [e])%list
      /\ submissions pre = []
      /\ submissions (snd (handle lib env cfg req w)) = [e]
      /\ submissionAnswer e = Some ans
      /\ fst (handle lib env cfg req w) = afterSubmission ans.
Proof.
  unfold_handler.
  cases; cbn;
    first [ left; split; [reflexivity | intros ? H; discriminate H]
          | right;
            first [ solve [exists []; do 2 eexists; repeat split; reflexivity]
                  | solve [eexists [_]; do 2 eexists; repeat split; reflexivity]
                  | solve [eexists [_; _]; do 2 eexists; repeat split;
                           reflexivity]
                  | solve [eexists [_; _; _]; do 2 eexists; repeat split;
                           reflexivity]
                  | solve [eexists [_; _; _; _]; do 2 eexists; repeat split;
                           reflexivity] ] ].
Qed.

(** X12: a request makes at most five recorded steps: it loads at most
    two accounts, builds at most one transaction and resolves at most
    once; on the relay path it makes at most two calls, none of them to
    federation or the ledger. *)
Theorem call_budget req w :
  (List.length (snd (handle lib env cfg req w)) <= 5)%nat
  /\ (List.length (loadedAccounts (snd (handle lib env cfg req w))) <= 2)%nat
  /\ (List.length (built (snd (handle lib env cfg req w))) <= 1)%nat
  /\ (compliancePath cfg req <> None ->
      (List.length (snd (handle lib env cfg req w)) <= 2)%nat
      /\ loadedAccounts (snd (handle lib env cfg req w)) = []
      /\ built (snd (handle lib env cfg req w)) = []
      /\ forall address ans,
          ~ In (EvResolve address ans) (snd (handle lib env cfg req w))).
Proof.
  unfold_handler.
  cases; cbn; repeat split; try lia; try congruence;
    try (intros address ans0 Hin; in_list Hin; discriminate).
Qed.

(** X13: the handler panics only on a nil pointer of its configuration or
    of the resolver's answer: on the relay path when no issuing seed is
    configured, and on the direct path when the client sent no memo type
    and the resolved destination carries a memo type without a memo. *)
Theorem panics_only_on_nil req w :
  fst (handle lib env cfg req w) = NilDereference ->
  (compliancePath cfg req <> None /\ IssuingSeed cfg = None)
  \/ (compliancePath cfg req = None
      /\ memo_type req = ""
      /\ exists d,
          In (EvResolve (destination req) (inr d))
             (snd (handle lib env cfg req w))
          /\ MemoType d <> None /\ Memo d = None).
Proof.
  unfold_handler.
  cases; cbn; intros H; try discriminate H;
    repeat match goal with
           | E : String.eqb _ _ = true |- _ => apply String.eqb_eq in E
           end;
    first [ left; split; [discriminate | first [assumption | reflexivity]]
          | right; split; [reflexivity|]; split; [assumption|];
            eexists; split; [left; reflexivity|];
            split; [congruence | first [assumption | reflexivity]] ].
Qed.

(** X14: every transaction a request builds has the same shape: the
    request's source, one sequence number within the unsigned 64-bit
    range, the configured network passphrase, exactly one operation, and
    at most one memo, in this order.  The operation pays the request's
    amount to the account the destination resolved to: a native Payment,
    a CreateAccount, or a Payment of the request's asset code with the
    parsed issuer's address. *)
Theorem built_transaction_shape req w muts :
  In muts (built (snd (handle lib env cfg req w))) ->
  exists d n op memoPart,
    In (EvResolve (destination req) (inr d)) (snd (handle lib env cfg req w))
    /\ muts = SourceAccount (source req) :: Sequence n
              :: Network (NetworkPassphrase cfg) :: op :: memoPart
    /\ 0 <= n < uint64_modulus
    /\ (op = b_Payment [Destination (AccountId d); NativeAmount (amount req)]
        \/ op = b_CreateAccount
                  [Destination (AccountId d); NativeAmount (amount req)]
        \/ exists issuerKeypair,
            keypair_Parse lib (asset_issuer req) = inr issuerKeypair
            /\ op = b_Payment
                      [ Destination (AccountId d);
                        CreditAmount (asset_code req) (Address issuerKeypair)
                          (amount req) ])
    /\ operations muts = [op]
    /\ memos muts = memoPart
    /\ (List.length memoPart <= 1)%nat.
Proof.
  unfold_handler.
  cases; cbn [built flat_map app fst snd In]; intros Hin; in_list Hin;
    do 4 eexists;
    (split; [left; reflexivity|]);
    (split; [reflexivity|]);
    (split; [apply Z.mod_pos_bound; reflexivity|]);
    (split;
     [first [ left; reflexivity
            | right; left; reflexivity
            | right; right; eexists;
              split; [first [eassumption | reflexivity] | reflexivity] ]|]);
    (split; [reflexivity|]);
    (split; [reflexivity | cbn; lia]).
Qed.

(** X15: when the builder accepts the transaction a request built, what
    is submitted is exactly that transaction signed with the request's
    source and encoded; if the encoding fails the request ends with
    ServerError and nothing is submitted. *)
Theorem submitted_envelope_is_the_built_transaction req w muts :
  In muts (built (snd (handle lib env cfg req w))) ->
  Transaction_Err lib muts = None ->
  (forall e,
      Sign_Base64 lib muts (source req) = inl e ->
      fst (handle lib env cfg req w) = Written (ErrorResponse ServerError)
      /\ submissions (snd (handle lib env cfg req w)) = [])
  /\ (forall txeB64,
        Sign_Base64 lib muts (source req) = inr txeB64 ->
        exists ans,
          submissions (snd (handle lib env cfg req w))
          = [EvSubmitTransaction txeB64 ans]
          /\ fst (handle lib env cfg req w) = afterSubmission ans).
Proof.
  unfold_handler.
  cases; cbn [built flat_map app fst snd In submissions filter is_submission];
    intros Hin; in_list Hin; intros Herr;
    match goal with
    | E : Transaction_Err _ _ = ?x |- _ =>
        lazymatch x with
        | None => fail
        | _ => assert (x = None) as Hx by (rewrite <- E; exact Herr)
        end
    | _ => idtac
    end;
    try discriminate Hx;
    match goal with
    | E : Sign_Base64 _ _ _ = _ |- _ => rewrite E
    end;
    (split; [intros e' He | intros txe He]);
    try discriminate He; injection He as <-;
    first [ split; reflexivity | eexists; split; reflexivity ].
Qed.

(** X16: on the relay path the request's memo_type and memo are neither
    checked nor forwarded: changing them changes nothing of what the
    handler does. *)
Theorem relay_ignores_memo_fields req type value w :
  compliancePath cfg req <> None ->
  handle lib env cfg (withMemo type value req) w = handle lib env cfg req w.
Proof.
  intros Hp. unfold handle, Payment, compliancePath in *.
  cbn [source extra_memo withMemo].
  destruct (keypair_Parse lib (source req)); [reflexivity|].
  destruct (if nonempty (extra_memo req) then Compliance cfg else None);
    [reflexivity | contradiction].
Qed.

(** X17: on the direct path the sender field is never read, and without
    a configured compliance server the extra_memo field is never acted
    on: changing either changes nothing of what the handler does. *)
Theorem direct_ignores_sender_and_extra_memo req name extra w :
  (compliancePath cfg req = None ->
   handle lib env cfg (withSender name req) w = handle lib env cfg req w)
  /\ (Compliance cfg = None ->
      handle lib env cfg (withExtraMemo extra req) w
      = handle lib env cfg req w).
Proof.
  split.
  - intros Hp. unfold handle, Payment, compliancePath in *.
    cbn [source extra_memo withSender]. rewrite Hp.
    destruct (keypair_Parse lib (source req)); reflexivity.
  - intros Hc. unfold handle, Payment, compliancePath.
    cbn [source extra_memo withExtraMemo]. rewrite Hc.
    destruct (keypair_Parse lib (source req)); [reflexivity|].
    destruct (nonempty extra); destruct (nonempty (extra_memo req));
      reflexivity.
Qed.

(** X18: when the relay answers with status 200 and a body that holds a
    transaction, that transaction is signed and submitted with the
    configured issuing seed (not the request's source) and the response
    is the submission's result verbatim, or ServerError when it failed;
    no other call is made.  With no issuing seed configured the handler
    panics after the relay has been called. *)
Theorem relay_accepted req w kp compliance resp body sent tx w1 :
  keypair_Parse lib (source req) = inr kp ->
  compliancePath cfg req = Some compliance ->
  http_PostForm env (compliance ++ "/send") (complianceValues req kp) w
  = (inr resp, w1) ->
  Body resp = inr body ->
  StatusCode resp = 200 ->
  json_Unmarshal lib body = inr sent ->
  xdr_SafeUnmarshalBase64 lib (TransactionXdr sent) = inr tx ->
  let posted :=
    EvPostForm (compliance ++ "/send") (complianceValues req kp) (inr resp) in
  (IssuingSeed cfg = None ->
   handle lib env cfg req w = (NilDereference, [posted]))
  /\ (forall seed ans w2,
        IssuingSeed cfg = Some seed ->
        SignAndSubmitRawTransaction env seed tx w1 = (ans, w2) ->
        handle lib env cfg req w
        = (afterSubmission ans,
           [posted; EvSignAndSubmitRawTransaction seed tx ans])).
Proof.
  intros Hs Hp Hc Hb Hst Hj Hx posted. unfold posted.
  rewrite (handle_relay lib env cfg _ w kp compliance Hs Hp).
  unfold complianceRelay. unfold_monad. rewrite Hc. cbn [world calls].
  rewrite Hb, Hst, Hj, Hx. cbn [Z.eqb Pos.eqb negb].
  split.
  - intros ->. reflexivity.
  - intros seed ans w2 Hseed Hsub. rewrite Hseed. cbn [world calls].
    rewrite Hsub. destruct ans; reflexivity.
Qed.

(** X19: a direct-assembly request for the native asset whose destination
    resolves to a well-formed account always queries the ledger for that
    account right after the resolution, before the memo fields are
    looked at: the probe is made even when the request then fails on its
    memo. *)
Theorem native_probe_precedes_memo_checks req w kp d k w1 :
  keypair_Parse lib (source req) = inr kp ->
  compliancePath cfg req = None ->
  asset_code req = "" ->
  asset_issuer req = "" ->
  federation_Resolve env (destination req) w = (inr d, w1) ->
  keypair_Parse lib (AccountId d) = inr k ->
  exists rest,
    snd (handle lib env cfg req w)
    = EvResolve (destination req) (inr d)
      :: EvLoadAccount (AccountId d)
           (fst (Horizon_LoadAccount env (AccountId d) w1))
      :: rest.
Proof.
  intros Hs Hp Hc Hi Hr Hk. rewrite (handle_direct lib env cfg _ w kp Hs Hp).
  unfold_stages. rewrite Hr. cbn [world calls]. rewrite Hk, Hc, Hi.
  cbn [String.eqb negb andb]. unfold_construct.
  destruct (Horizon_LoadAccount env (AccountId d) w1) as [ans w2].
  cbn [fst world calls app].
  cases; cbn [snd]; eexists; reflexivity.
Qed.

(** X20: a direct-assembly request succeeds when nothing fails: once the
    stages before the dispatch and the dispatch have passed, if the
    source account loads with a sequence number that parses, the builder
    accepts the transaction, the envelope encodes and the submission is
    accepted, the response is the submission's result and the calls made
    from the dispatch on are exactly the load, the one build and the one
    submission. *)
Theorem direct_assembly_succeeds
    req w kp op memoType memoValue s1 memoMutator acct w2 n txeB64
    submitResponse w3 :
  keypair_Parse lib (source req) = inr kp ->
  compliancePath cfg req = None ->
  beforeDispatch lib env req (start w)
  = (inr (op, (memoType, memoValue)), s1) ->
  memoDispatch memoType memoValue s1 = (inr memoMutator, s1) ->
  Horizon_LoadAccount env (Address kp) (world s1) = (inr acct, w2) ->
  strconv.ParseUint (SequenceNumber acct) = inr n ->
  let muts := transactionMutators cfg req op memoMutator n in
  Transaction_Err lib muts = None ->
  Sign_Base64 lib muts (source req) = inr txeB64 ->
  Horizon_SubmitTransaction env txeB64 w2 = (inr submitResponse, w3) ->
  handle lib env cfg req w
  = (Written (Submitted submitResponse),
     (calls s1
      ++ [ EvLoadAccount (Address kp) (inr acct);
           EvTransaction muts;
           EvSubmitTransaction txeB64 (inr submitResponse) ])%list).
Proof.
  intros Hs Hp Hb Hd Hl Hn muts He Hsig Hsub.
  rewrite (handle_direct lib env cfg _ w kp Hs Hp).
  rewrite (directAssembly_from_dispatch lib env cfg _ _ _ _ _ _ _ Hb).
  unfold bind at 1. rewrite Hd.
  unfold construct, loadSequence, buildAndSubmit. unfold_monad.
  rewrite Hl. cbn [world calls]. rewrite Hn. fold muts.
  rewrite He, Hsig. cbn [world calls]. rewrite Hsub.
  rewrite <- !app_assoc. reflexivity.
Qed.

End FurtherProperties.

(** ** The further properties on concrete requests *)

Lemma resolution_failure_stops_before_ledger_witness :
  testHandle testWorld (payment "SALICE" "nobody*example.com")
  = (Written (ErrorResponse PaymentCannotResolveDestination),
     [EvResolve "nobody*example.com" (inl "cannot resolve")])
  /\ testHandle oddWorld (payment "SALICE" "frank*example.com")
     = (Written (ErrorResponse PaymentInvalidDestination),
        [resolvedTo "frank*example.com" (plain "not an address")]).
Proof.
  split.
  - apply (proj1 (resolution_failure_stops_before_ledger testLibrary
                    testCollaborators testConfig
                    (payment "SALICE" "nobody*example.com") testWorld
                    {| Address := "GALICE" |} (inl "cannot resolve") testWorld
                    eq_refl eq_refl eq_refl) "cannot resolve" eq_refl).
  - apply (proj2 (resolution_failure_stops_before_ledger testLibrary
                    testCollaborators testConfig
                    (payment "SALICE" "frank*example.com") oddWorld
                    {| Address := "GALICE" |}
                    (inr (plain "not an address")) oddWorld
                    eq_refl eq_refl eq_refl)
             (plain "not an address") "invalid key" eq_refl eq_refl).
Defined.

Lemma invalid_issuer_stops_before_ledger_witness :
  testHandle testWorld
    (withAsset "USD" "bogus" (payment "SALICE" "bob*example.com"))
  = (Written (ErrorResponse PaymentInvalidIssuer),
     [EvResolve "bob*example.com" (inr (plain "GBOB"))]).
Proof.
  apply (invalid_issuer_stops_before_ledger testLibrary testCollaborators
           testConfig
           (withAsset "USD" "bogus" (payment "SALICE" "bob*example.com"))
           testWorld {| Address := "GALICE" |} (plain "GBOB")
           {| Address := "GBOB" |} testWorld "invalid key"
           eq_refl eq_refl eq_refl eq_refl eq_refl eq_refl eq_refl).
Defined.

Lemma native_funded_destination_is_paid_witness :
  built (snd (testHandle testWorld (payment "SALICE" "bob*example.com")))
  = [[ SourceAccount "SALICE"; Sequence 42; Network "Test Network";
       nativePayment "GBOB" ]]
  /\ forall muts,
      In muts
        (built (snd (testHandle testWorld
                       (payment "SALICE" "bob*example.com")))) ->
      operations muts = [nativePayment "GBOB"].
Proof.
  split; [reflexivity|].
  apply (proj2 (native_funded_destination_is_paid testLibrary
                  testCollaborators testConfig
                  (payment "SALICE" "bob*example.com") testWorld
                  {| Address := "GALICE" |} (plain "GBOB") testWorld
                  {| SequenceNumber := "7" |} testWorld
                  eq_refl eq_refl eq_refl eq_refl eq_refl eq_refl)).
Defined.

Lemma one_memo_parameter_is_refused_witness :
  testHandle testWorld
    (withMemo "" "lunch" (payment "SALICE" "bob*example.com"))
  = (Written (ErrorResponse PaymentMissingParamMemo),
     [ resolvedTo "bob*example.com" (plain "GBOB"); loadedWith "GBOB" "7" ]).
Proof.
  apply (one_memo_parameter_is_refused testLibrary testCollaborators
           testConfig
           (withMemo "" "lunch" (payment "SALICE" "bob*example.com"))
           testWorld {| Address := "GALICE" |} (plain "GBOB")
           (afterCalls testWorld
              [resolvedTo "bob*example.com" (plain "GBOB")])
           (nativePayment "GBOB")
           (afterCalls testWorld
              [ resolvedTo "bob*example.com" (plain "GBOB");
                loadedWith "GBOB" "7" ])
           eq_refl eq_refl eq_refl eq_refl).
  discriminate.
Defined.

Lemma mandated_type_without_memo_panics_witness :
  testHandle oddWorld (payment "SALICE" "gina*example.com")
  = (NilDereference,
     [ resolvedTo "gina*example.com"
         {| AccountId := "GBOB"; MemoType := Some "text"; Memo := None |};
       loadedWith "GBOB" "7" ]).
Proof.
  apply (mandated_type_without_memo_panics testLibrary testCollaborators
           testConfig (payment "SALICE" "gina*example.com") oddWorld
           {| Address := "GALICE" |}
           {| AccountId := "GBOB"; MemoType := Some "text"; Memo := None |}
           (afterCalls oddWorld
              [resolvedTo "gina*example.com"
                 {| AccountId := "GBOB"; MemoType := Some "text";
                    Memo := None |}])
           (nativePayment "GBOB")
           (afterCalls oddWorld
              [ resolvedTo "gina*example.com"
                  {| AccountId := "GBOB"; MemoType := Some "text";
                     Memo := None |};
                loadedWith "GBOB" "7" ])
           "text" eq_refl eq_refl eq_refl eq_refl eq_refl eq_refl eq_refl
           eq_refl).
Defined.

Lemma id_memo_dispatch_witness :
  (forall muts,
      In muts
        (built (snd (testHandle testWorld
                       (withMemo "id" "0042"
                          (payment "SALICE" "bob*example.com"))))) ->
      memos muts = [MemoID 42])
  /\ testHandle testWorld
       (withMemo "id" "+42" (payment "SALICE" "bob*example.com"))
     = (Written (ErrorResponse PaymentInvalidMemo),
        [ resolvedTo "bob*example.com" (plain "GBOB");
          loadedWith "GBOB" "7" ]).
Proof.
  split.
  - apply (proj1 (id_memo_dispatch testLibrary testCollaborators testConfig
                    (withMemo "id" "0042" (payment "SALICE" "bob*example.com"))
                    testWorld {| Address := "GALICE" |}
                    (nativePayment "GBOB") "0042"
                    (afterCalls testWorld
                       [ resolvedTo "bob*example.com" (plain "GBOB");
                         loadedWith "GBOB" "7" ])
                    eq_refl eq_refl eq_refl)).
    split; [discriminate|]. split; reflexivity.
  - apply (proj2 (id_memo_dispatch testLibrary testCollaborators testConfig
                    (withMemo "id" "+42" (payment "SALICE" "bob*example.com"))
                    testWorld {| Address := "GALICE" |}
                    (nativePayment "GBOB") "+42"
                    (afterCalls testWorld
                       [ resolvedTo "bob*example.com" (plain "GBOB");
                         loadedWith "GBOB" "7" ])
                    eq_refl eq_refl eq_refl)).
    intros [_ [H _]]. discriminate H.
Defined.

Lemma text_and_absent_memo_dispatch_witness :
  (forall muts,
      In muts
        (built (snd (testHandle testWorld
                       (withMemo "text" "lunch"
                          (payment "SALICE" "bob*example.com"))))) ->
      memos muts = [MemoText "lunch"])
  /\ (forall muts,
        In muts
          (built (snd (testHandle oddWorld
                         (payment "SALICE" "heidi*example.com")))) ->
        memos muts = []).
Proof.
  split.
  - apply (proj1 (text_and_absent_memo_dispatch testLibrary testCollaborators
                    testConfig
                    (withMemo "text" "lunch"
                       (payment "SALICE" "bob*example.com"))
                    testWorld {| Address := "GALICE" |}
                    (nativePayment "GBOB") "lunch"
                    (afterCalls testWorld
                       [ resolvedTo "bob*example.com" (plain "GBOB");
                         loadedWith "GBOB" "7" ])
                    eq_refl eq_refl) eq_refl).
  - apply (proj2 (text_and_absent_memo_dispatch testLibrary testCollaborators
                    testConfig (payment "SALICE" "heidi*example.com")
                    oddWorld {| Address := "GALICE" |}
                    (nativePayment "GBOB") "dropped"
                    (afterCalls oddWorld
                       [ resolvedTo "heidi*example.com"
                           {| AccountId := "GBOB"; MemoType := Some "";
                              Memo := Some "dropped" |};
                         loadedWith "GBOB" "7" ])
                    eq_refl eq_refl) eq_refl).
Defined.

Lemma source_snapshot_failures_witness :
  testHandle testWorld (payment "SCAROL" "bob*example.com")
  = (Written (ErrorResponse PaymentSourceNotExist),
     [ resolvedTo "bob*example.com" (plain "GBOB"); loadedWith "GBOB" "7";
       EvLoadAccount "GCAROL" (inl "not found") ])
  /\ testHandle oddWorld (payment "SODD" "bob*example.com")
     = (Written (ErrorResponse ServerError),
        [ resolvedTo "bob*example.com" (plain "GBOB"); loadedWith "GBOB" "7";
          loadedWith "GODD" "4x2" ]).
Proof.
  split.
  - apply (proj1 (source_snapshot_failures testLibrary testCollaborators
                    testConfig (payment "SCAROL" "bob*example.com") testWorld
                    {| Address := "GCAROL" |} (nativePayment "GBOB") "" ""
                    (afterCalls testWorld
                       [ resolvedTo "bob*example.com" (plain "GBOB");
                         loadedWith "GBOB" "7" ])
                    None (inl "not found") testWorld
                    eq_refl eq_refl eq_refl eq_refl eq_refl)
             "not found" eq_refl).
  - apply (proj2 (source_snapshot_failures testLibrary testCollaborators
                    testConfig (payment "SODD" "bob*example.com") oddWorld
                    {| Address := "GODD" |} (nativePayment "GBOB") "" ""
                    (afterCalls oddWorld
                       [ resolvedTo "bob*example.com" (plain "GBOB");
                         loadedWith "GBOB" "7" ])
                    None (inr {| SequenceNumber := "4x2" |}) oddWorld
                    eq_refl eq_refl eq_refl eq_refl eq_refl)
             {| SequenceNumber := "4x2" |} strconv.ErrSyntax eq_refl eq_refl).
Defined.

Lemma builder_error_is_classified_witness :
  submissions
    (snd (handle (refusingLibrary "build: cannot parse amount: ten")
            testCollaborators testConfig
            (payment "SALICE" "bob*example.com") testWorld))
  = []
  /\ fst (handle (refusingLibrary "build: cannot parse amount: ten")
            testCollaborators testConfig
            (payment "SALICE" "bob*example.com") testWorld)
     = Written (ErrorResponse PaymentInvalidAmount).
Proof.
  destruct (builder_error_is_classified
              (refusingLibrary "build: cannot parse amount: ten")
              testCollaborators testConfig
              (payment "SALICE" "bob*example.com") testWorld
              [ SourceAccount "SALICE"; Sequence 42; Network "Test Network";
                nativePayment "GBOB" ]
              "build: cannot parse amount: ten"
              (or_introl eq_refl) eq_refl)
    as [Hnone [_ [Hamount _]]].
  split; [exact Hnone|]. apply Hamount; [discriminate | reflexivity].
Defined.

Lemma asset_and_amount_errors_come_from_builder_witness :
  exists muts,
    built (snd (handle (refusingLibrary "Asset code length is invalid")
                  testCollaborators testConfig
                  (withAsset "TOOLONGASSETCODE" "GISSUER"
                     (payment "SALICE" "bob*example.com")) testWorld))
    = [muts]
    /\ Transaction_Err (refusingLibrary "Asset code length is invalid") muts
       = Some "Asset code length is invalid".
Proof.
  apply (proj1 (asset_and_amount_errors_come_from_builder
                  (refusingLibrary "Asset code length is invalid")
                  testCollaborators testConfig
                  (withAsset "TOOLONGASSETCODE" "GISSUER"
                     (payment "SALICE" "bob*example.com")) testWorld)).
  reflexivity.
Defined.

Lemma call_budget_witness :
  (List.length
     (snd (testHandle testWorld
             (withExtraMemo "kyc" (payment "SALICE" "bob*example.com"))))
   <= 2)%nat
  /\ loadedAccounts
       (snd (testHandle testWorld
               (withExtraMemo "kyc" (payment "SALICE" "bob*example.com"))))
     = []
  /\ built
       (snd (testHandle testWorld
               (withExtraMemo "kyc" (payment "SALICE" "bob*example.com"))))
     = []
  /\ forall address ans,
      ~ In (EvResolve address ans)
          (snd (testHandle testWorld
                  (withExtraMemo "kyc" (payment "SALICE" "bob*example.com")))).
Proof.
  apply (proj2 (proj2 (proj2
           (call_budget testLibrary testCollaborators testConfig
              (withExtraMemo "kyc" (payment "SALICE" "bob*example.com"))
              testWorld)))).
  discriminate.
Defined.

Lemma panics_only_on_nil_witness :
  (compliancePath testConfig (payment "SALICE" "gina*example.com") <> None
   /\ IssuingSeed testConfig = None)
  \/ (compliancePath testConfig (payment "SALICE" "gina*example.com") = None
      /\ memo_type (payment "SALICE" "gina*example.com") = ""
      /\ exists d,
          In (EvResolve "gina*example.com" (inr d))
             (snd (testHandle oddWorld (payment "SALICE" "gina*example.com")))
          /\ MemoType d <> None /\ Memo d = None).
Proof.
  apply (panics_only_on_nil testLibrary testCollaborators testConfig
           (payment "SALICE" "gina*example.com") oddWorld).
  reflexivity.
Defined.

Lemma built_transaction_shape_witness :
  exists d n op memoPart,
    In (EvResolve "bob*example.com" (inr d))
       (snd (testHandle testWorld
               (withMemo "id" "42" (payment "SALICE" "bob*example.com"))))
    /\ [ SourceAccount "SALICE"; Sequence 42; Network "Test Network";
         nativePayment "GBOB"; MemoID 42 ]
       = SourceAccount "SALICE" :: Sequence n :: Network "Test Network"
         :: op :: memoPart
    /\ 0 <= n < uint64_modulus
    /\ (op = b_Payment [Destination (AccountId d); NativeAmount "10"]
        \/ op = b_CreateAccount [Destination (AccountId d); NativeAmount "10"]
        \/ exists issuerKeypair,
            keypair_Parse testLibrary "" = inr issuerKeypair
            /\ op = b_Payment
                      [ Destination (AccountId d);
                        CreditAmount "" (Address issuerKeypair) "10" ])
    /\ operations
         [ SourceAccount "SALICE"; Sequence 42; Network "Test Network";
           nativePayment "GBOB"; MemoID 42 ]
       = [op]
    /\ memos
         [ SourceAccount "SALICE"; Sequence 42; Network "Test Network";
           nativePayment "GBOB"; MemoID 42 ]
       = memoPart
    /\ (List.length memoPart <= 1)%nat.
Proof.
  apply (built_transaction_shape testLibrary testCollaborators testConfig
           (withMemo "id" "42" (payment "SALICE" "bob*example.com"))
           testWorld
           [ SourceAccount "SALICE"; Sequence 42; Network "Test Network";
             nativePayment "GBOB"; MemoID 42 ]).
  vm_compute. left. reflexivity.
Defined.

Lemma submitted_envelope_is_the_built_transaction_witness :
  (exists ans,
      submissions
        (snd (testHandle testWorld (payment "SALICE" "bob*example.com")))
      = [EvSubmitTransaction "signed by SALICE" ans]
      /\ fst (testHandle testWorld (payment "SALICE" "bob*example.com"))
         = afterSubmission ans)
  /\ (fst (handle unencodableLibrary testCollaborators testConfig
             (payment "SALICE" "bob*example.com") testWorld)
      = Written (ErrorResponse ServerError)
      /\ submissions
           (snd (handle unencodableLibrary testCollaborators testConfig
                   (payment "SALICE" "bob*example.com") testWorld))
         = []).
Proof.
  split.
  - apply (proj2 (submitted_envelope_is_the_built_transaction testLibrary
                    testCollaborators testConfig
                    (payment "SALICE" "bob*example.com") testWorld
                    [ SourceAccount "SALICE"; Sequence 42;
                      Network "Test Network"; nativePayment "GBOB" ]
                    (or_introl eq_refl) eq_refl)
             "signed by SALICE" eq_refl).
  - apply (proj1 (submitted_envelope_is_the_built_transaction
                    unencodableLibrary testCollaborators testConfig
                    (payment "SALICE" "bob*example.com") testWorld
                    [ SourceAccount "SALICE"; Sequence 42;
                      Network "Test Network"; nativePayment "GBOB" ]
                    (or_introl eq_refl) eq_refl)
             "xdr: encode failed" eq_refl).
Defined.

Lemma relay_ignores_memo_fields_witness :
  testHandle testWorld
    (withMemo "bogus" ""
       (withExtraMemo "kyc" (payment "SALICE" "bob*example.com")))
  = testHandle testWorld
      (withExtraMemo "kyc" (payment "SALICE" "bob*example.com")).
Proof.
  apply (relay_ignores_memo_fields testLibrary testCollaborators testConfig
           (withExtraMemo "kyc" (payment "SALICE" "bob*example.com"))
           "bogus" "" testWorld).
  discriminate.
Defined.

Lemma direct_ignores_sender_and_extra_memo_witness :
  testHandle testWorld
    (withSender "alice" (payment "SALICE" "bob*example.com"))
  = testHandle testWorld (payment "SALICE" "bob*example.com")
  /\ handle testLibrary testCollaborators noComplianceConfig
       (withExtraMemo "kyc" (payment "SALICE" "bob*example.com")) testWorld
     = handle testLibrary testCollaborators noComplianceConfig
         (payment "SALICE" "bob*example.com") testWorld.
Proof.
  split.
  - apply (proj1 (direct_ignores_sender_and_extra_memo testLibrary
                    testCollaborators testConfig
                    (payment "SALICE" "bob*example.com") "alice" ""
                    testWorld)).
    reflexivity.
  - apply (proj2 (direct_ignores_sender_and_extra_memo testLibrary
                    testCollaborators noComplianceConfig
                    (payment "SALICE" "bob*example.com") "" "kyc"
                    testWorld)).
    reflexivity.
Defined.

Lemma relay_accepted_witness :
  handle testLibrary testCollaborators noSeedConfig
    (withExtraMemo "kyc" (payment "SALICE" "bob*example.com")) testWorld
  = (NilDereference,
     [ EvPostForm "http://compliance/send"
         (complianceValues
            (withExtraMemo "kyc" (payment "SALICE" "bob*example.com"))
            {| Address := "GALICE" |})
         (inr {| StatusCode := 200; Body := inr "{tx}" |}) ])
  /\ testHandle testWorld
       (withExtraMemo "kyc" (payment "SALICE" "bob*example.com"))
     = (Written (Submitted "submitted"),
        [ EvPostForm "http://compliance/send"
            (complianceValues
               (withExtraMemo "kyc" (payment "SALICE" "bob*example.com"))
               {| Address := "GALICE" |})
            (inr {| StatusCode := 200; Body := inr "{tx}" |});
          EvSignAndSubmitRawTransaction "SISSUER" "{tx}" (inr "submitted") ]).
Proof.
  split.
  - apply (proj1 (relay_accepted testLibrary testCollaborators noSeedConfig
                    (withExtraMemo "kyc" (payment "SALICE" "bob*example.com"))
                    testWorld {| Address := "GALICE" |} "http://compliance"
                    {| StatusCode := 200; Body := inr "{tx}" |} "{tx}"
                    {| TransactionXdr := "{tx}" |} "{tx}" testWorld
                    eq_refl eq_refl eq_refl eq_refl eq_refl eq_refl eq_refl)).
    reflexivity.
  - apply (proj2 (relay_accepted testLibrary testCollaborators testConfig
                    (withExtraMemo "kyc" (payment "SALICE" "bob*example.com"))
                    testWorld {| Address := "GALICE" |} "http://compliance"
                    {| StatusCode := 200; Body := inr "{tx}" |} "{tx}"
                    {| TransactionXdr := "{tx}" |} "{tx}" testWorld
                    eq_refl eq_refl eq_refl eq_refl eq_refl eq_refl eq_refl)
             "SISSUER" (inr "submitted") testWorld eq_refl eq_refl).
Defined.

Lemma native_probe_precedes_memo_checks_witness :
  exists rest,
    snd (testHandle testWorld
           (withMemo "id" "" (payment "SALICE" "bob*example.com")))
    = EvResolve "bob*example.com" (inr (plain "GBOB"))
      :: EvLoadAccount "GBOB"
           (fst (Horizon_LoadAccount testCollaborators "GBOB" testWorld))
      :: rest.
Proof.
  apply (native_probe_precedes_memo_checks testLibrary testCollaborators
           testConfig
           (withMemo "id" "" (payment "SALICE" "bob*example.com"))
           testWorld {| Address := "GALICE" |} (plain "GBOB")
           {| Address := "GBOB" |} testWorld
           eq_refl eq_refl eq_refl eq_refl eq_refl eq_refl).
Defined.

Lemma direct_assembly_succeeds_witness :
  testHandle testWorld
    (withMemo "text" "lunch" (payment "SALICE" "carol*example.com"))
  = (Written (Submitted "submitted"),
     [ resolvedTo "carol*example.com" (plain "GCAROL");
       EvLoadAccount "GCAROL" (inl "not found");
       loadedWith "GALICE" "41";
       EvTransaction
         [ SourceAccount "SALICE"; Sequence 42; Network "Test Network";
           b_CreateAccount [Destination "GCAROL"; NativeAmount "10"];
           MemoText "lunch" ];
       EvSubmitTransaction "signed by SALICE" (inr "submitted") ]).
Proof.
  apply (direct_assembly_succeeds testLibrary testCollaborators testConfig
           (withMemo "text" "lunch" (payment "SALICE" "carol*example.com"))
           testWorld {| Address := "GALICE" |}
           (b_CreateAccount [Destination "GCAROL"; NativeAmount "10"])
           "text" "lunch"
           (afterCalls testWorld
              [ resolvedTo "carol*example.com" (plain "GCAROL");
                EvLoadAccount "GCAROL" (inl "not found") ])
           (Some (MemoText "lunch")) {| SequenceNumber := "41" |} testWorld
           41 "signed by SALICE" "submitted" testWorld
           eq_refl eq_refl eq_refl eq_refl eq_refl eq_refl eq_refl eq_refl
           eq_refl).
Defined.
